(** * Gematria calculator: a shallow embedding of [app.py]

    The computation logic of [app.py] (the letter tables, the two
    [compute_*_gematria] functions and the bounded history kept in the
    session state) is rendered here as Rocq definitions, and the properties
    stated about it are proved over those definitions.

    Conventions.
    - A Python [str] is a sequence of Unicode code points: [pystr] is
      [list Z].  A one-character string is a one-element list.
    - A Python [int] is unbounded: [Z].  Python's [%] with a positive
      divisor is [Z.modulo].
    - A Python [dict] is a [gmap]; subscripting a missing key raises
      [KeyError], so subscripting lives in a monad with exceptions.
    - The module-level tables and [st.session_state['history']] are mutable
      objects; they live in an explicit [store] threaded through every
      call. *)

From Stdlib Require Import ZArith Lia.
From stdpp Require Import gmap strings list fin_maps.

Local Open Scope Z_scope.

Abbreviation pystr := (list Z).

(** ** Python built-ins used by the program *)

Module Py.

(** [str.isspace] for one code point, as CPython's Unicode database has
    it (general category Zs, or bidirectional class WS, B or S). *)
Definition isspace (c : Z) : bool :=
  ((9 <=? c) && (c <=? 13)) || ((28 <=? c) && (c <=? 32))
  || (c =? 133) || (c =? 160) || (c =? 5760)
  || ((8192 <=? c) && (c <=? 8202))
  || (c =? 8232) || (c =? 8233) || (c =? 8239) || (c =? 8287)
  || (c =? 12288).

(** [s.split()] with no separator: runs of whitespace separate the
    tokens, leading and trailing whitespace yields no empty token.
    [cur] is the token being collected, if any. *)
Fixpoint split_from (cur : option pystr) (s : pystr) : list pystr :=
  match s with
  | [] => match cur with Some w => [w] | None => [] end
  | c :: rest =>
      if isspace c then
        match cur with
        | Some w => w :: split_from None rest
        | None => split_from None rest
        end
      else split_from (Some (default [] cur ++ [c])) rest
  end.

Definition split (s : pystr) : list pystr := split_from None s.

(** [s.lstrip()], [s.strip()] with no argument. *)
Fixpoint lstrip (s : pystr) : pystr :=
  match s with
  | [] => []
  | c :: rest => if isspace c then lstrip rest else s
  end.

Definition strip (s : pystr) : pystr :=
  reverse (lstrip (reverse (lstrip s))).

(** [len(x)]. *)
Definition len {A} (l : list A) : Z := Z.of_nat (length l).

(** [sum(xs)]: left to right from 0. *)
Definition sum (xs : list Z) : Z := fold_left Z.add xs 0.

(** [range(n)]. *)
Definition range (n : Z) : list Z := seqZ 0 n.

(** [s[:n]] for [0 <= n]. *)
Definition slice_to {A} (n : Z) (l : list A) : list A := take (Z.to_nat n) l.

(** [ord('a')], [ord('.')]. *)
Definition ord_a : Z := 97.
Definition ord_dot : Z := 46.

(** A dict display or comprehension: the items are inserted left to
    right, a later item replacing an earlier one with the same key. *)
Definition dict_of {K} `{Countable K} {V} (items : list (K * V)) : gmap K V :=
  fold_left (fun d kv => <[kv.1 := kv.2]> d) items ∅.

(** [k in d]. *)
Definition contains {K} `{Countable K} {V} (d : gmap K V) (k : K) : bool :=
  bool_decide (is_Some (d !! k)).

(** [d.get(k, dflt)]. *)
Definition get {K} `{Countable K} {V} (d : gmap K V) (k : K) (dflt : V) : V :=
  default dflt (d !! k).

End Py.

(** ** The module's tables (section 2 of [app.py]) *)

(** The Hebrew alphabet, U+05D0 .. U+05EA, in the order of the dict
    display: each final form follows its regular form. *)
Definition HEBREW_VALUES : gmap pystr Z :=
  Py.dict_of
    [ ([0x5D0], 1); ([0x5D1], 2); ([0x5D2], 3); ([0x5D3], 4); ([0x5D4], 5);
      ([0x5D5], 6); ([0x5D6], 7); ([0x5D7], 8); ([0x5D8], 9); ([0x5D9], 10);
      ([0x5DB], 20); ([0x5DA], 20); ([0x5DC], 30); ([0x5DE], 40);
      ([0x5DD], 40); ([0x5E0], 50); ([0x5DF], 50); ([0x5E1], 60);
      ([0x5E2], 70);
      ([0x5E4], 80); ([0x5E3], 80); ([0x5E6], 90); ([0x5E5], 90);
      ([0x5E7], 100); ([0x5E8], 200); ([0x5E9], 300); ([0x5EA], 400) ].

Definition ENGLISH_ORDINAL : gmap pystr Z :=
  Py.dict_of ((fun i => ([Py.ord_a + i], i + 1)) <$> Py.range 26).

Definition ENGLISH_REDUCTION : gmap pystr Z :=
  Py.dict_of ((fun i => ([Py.ord_a + i], i mod 9 + 1)) <$> Py.range 26).

Definition ENGLISH_REVERSE_ORDINAL : gmap pystr Z :=
  Py.dict_of ((fun i => ([Py.ord_a + i], 26 - i)) <$> Py.range 26).

Definition ENGLISH_REVERSE_REDUCTION : gmap pystr Z :=
  Py.dict_of ((fun i => ([Py.ord_a + i], (25 - i) mod 9 + 1)) <$> Py.range 26).

(** ** The store: module globals and session state *)

(** One entry of [st.session_state['history']]. *)
Record history_entry := HistoryEntry {
  entry_text : pystr;
  entry_lang : string;
  entry_val : Z
}.

Record store := Store {
  g_HEBREW_VALUES : gmap pystr Z;
  g_ENGLISH_ORDINAL : gmap pystr Z;
  g_ENGLISH_REDUCTION : gmap pystr Z;
  g_ENGLISH_REVERSE_ORDINAL : gmap pystr Z;
  g_ENGLISH_REVERSE_REDUCTION : gmap pystr Z;
  g_history : list history_entry
}.

(** The store once the module has been loaded, with the session's history
    being [h] ([[]] in a fresh session, line 155). *)
Definition module_store (h : list history_entry) : store :=
  Store HEBREW_VALUES ENGLISH_ORDINAL ENGLISH_REDUCTION
        ENGLISH_REVERSE_ORDINAL ENGLISH_REVERSE_REDUCTION h.

Definition set_history (h : list history_entry) (s : store) : store :=
  Store (g_HEBREW_VALUES s) (g_ENGLISH_ORDINAL s) (g_ENGLISH_REDUCTION s)
        (g_ENGLISH_REVERSE_ORDINAL s) (g_ENGLISH_REVERSE_REDUCTION s) h.

(** ** A monad for store and exceptions *)

Inductive exn := KeyError (key : pystr).

Inductive outcome (A : Type) :=
| Returns (a : A)
| Raises (e : exn).
Arguments Returns {A} a.
Arguments Raises {A} e.

Definition M (A : Type) : Type := store -> outcome A * store.

Definition ret {A} (a : A) : M A := fun s => (Returns a, s).

Definition raise {A} (e : exn) : M A := fun s => (Raises e, s).

Definition bind {A B} (m : M A) (k : A -> M B) : M B :=
  fun s =>
    match m s with
    | (Returns a, s') => k a s'
    | (Raises e, s') => (Raises e, s')
    end.

(** Reading a global name, and rebinding or mutating the history. *)
Definition read {A} (field : store -> A) : M A := fun s => (Returns (field s), s).

Definition update_history (f : list history_entry -> list history_entry) : M unit :=
  fun s => (Returns tt, set_history (f (g_history s)) s).

Notation "'let*' x ':=' m 'in' k" := (bind m (fun x => k))
  (at level 10, x pattern, m at level 100, k at level 200).

(** [d[k]]: raises [KeyError] when [k] is missing. *)
Definition getitem (d : gmap pystr Z) (k : pystr) : M Z :=
  match d !! k with
  | Some v => ret v
  | None => raise (KeyError k)
  end.

(** A comprehension or generator whose element expression may raise. *)
Fixpoint for_each {A B} (f : A -> M B) (l : list A) : M (list B) :=
  match l with
  | [] => ret []
  | x :: rest =>
      let* y := f x in
      let* ys := for_each f rest in
      ret (y :: ys)
  end.

(** ** Results of a computation *)

(** The totals are a dict from metric name to total. *)
Abbreviation totals := (gmap string Z).

(** One dict of the Hebrew breakdown: ["Letter"], ["Value"], ["Small"]. *)
Record hebrew_row := HebrewRow {
  Letter : pystr;
  Value : Z;
  Small : Z
}.

(** One dict of the English breakdown: ["Letter"], ["Ordinal"],
    ["Reduction"], ["Rev. Ordinal"], ["Rev. Reduction"]. *)
Record english_row := EnglishRow {
  ELetter : pystr;
  Ordinal : Z;
  Reduction : Z;
  RevOrdinal : Z;
  RevReduction : Z
}.

(** ** The computation logic (section 3 of [app.py]) *)

Section Computation.

(** The Unicode database is not part of the program.  What it does
    outside ASCII stays abstract: [normalize_NFKD] is
    [unicodedata.normalize('NFKD', _)], [lower_nonascii] and
    [upper_nonascii] are [str.lower] and [str.upper] on one code point
    above U+007F. *)
Variable normalize_NFKD : pystr -> pystr.
Variable lower_nonascii : Z -> pystr.
Variable upper_nonascii : Z -> pystr.

(** [c.lower()] for a one-character string [c]. *)
Definition lower (c : Z) : pystr :=
  if (65 <=? c) && (c <=? 90) then [c + 32]
  else if c <? 128 then [c]
  else lower_nonascii c.

Definition upper_char (c : Z) : pystr :=
  if (97 <=? c) && (c <=? 122) then [c - 32]
  else if c <? 128 then [c]
  else upper_nonascii c.

(** [s.upper()]. *)
Definition upper (s : pystr) : pystr := flat_map upper_char s.

(** The reduction written twice in [compute_hebrew_gematria]:
    [(v - 1) % 9 + 1]. *)
Definition small (v : Z) : Z := (v - 1) mod 9 + 1.

(** Lines 89-93: the loop over the normalized text, appending to
    [clean_chars] and [clean_values]. *)
Fixpoint hebrew_scan (normalized_text : pystr)
    (clean_chars : list pystr) (clean_values : list Z)
    : M (list pystr * list Z) :=
  match normalized_text with
  | [] => ret (clean_chars, clean_values)
  | char :: rest =>
      let* table := read g_HEBREW_VALUES in
      if Py.contains table [char] then
        let* table := read g_HEBREW_VALUES in
        let* val := getitem table [char] in
        hebrew_scan rest (clean_chars ++ [[char]]) (clean_values ++ [val])
      else hebrew_scan rest clean_chars clean_values
  end.

Definition compute_hebrew_gematria (text : pystr)
    : M (totals * list hebrew_row) :=
  match text with
  | [] =>
      ret ({[ "Standard" := 0; "Mispar Katan" := 0;
              "Letters" := 0; "Words" := 0 ]}, [])
  | _ :: _ =>
      let normalized_text := normalize_NFKD text in
      let* (clean_chars, clean_values) := hebrew_scan normalized_text [] [] in
      match clean_chars with
      | [] =>
          ret ({[ "Standard" := 0; "Mispar Katan" := 0;
                  "Letters" := 0; "Words" := Py.len (Py.split text) ]}, [])
      | _ :: _ =>
          let total_standard := Py.sum clean_values in
          let total_katan := Py.sum (small <$> clean_values) in
          let results : totals :=
            {[ "Standard" := total_standard;
               "Mispar Katan" := total_katan;
               "Letters" := Py.len clean_chars;
               "Words" := Py.len (Py.split text) ]} in
          let breakdown :=
            (fun cv => HebrewRow cv.1 cv.2 (small cv.2))
              <$> zip clean_chars clean_values in
          ret (results, breakdown)
      end
  end.

(** Line 120: [[c.lower() for c in text if c.lower() in ENGLISH_ORDINAL]]. *)
Fixpoint english_clean_text (text : pystr) : M (list pystr) :=
  match text with
  | [] => ret []
  | c :: rest =>
      let* table := read g_ENGLISH_ORDINAL in
      if Py.contains table (lower c) then
        let* tl := english_clean_text rest in
        ret (lower c :: tl)
      else english_clean_text rest
  end.

(** [TABLE[c]] for a global [TABLE]. *)
Definition subscript (table : store -> gmap pystr Z) (c : pystr) : M Z :=
  let* d := read table in getitem d c.

(** Lines 125-128: [sum(TABLE[c] for c in clean_text)]. *)
Definition sum_table (table : store -> gmap pystr Z) (clean_text : list pystr)
    : M Z :=
  let* vs := for_each (subscript table) clean_text in
  ret (Py.sum vs).

(** Lines 139-145: one dict of the breakdown. *)
Definition english_entry (c : pystr) : M english_row :=
  let* o := subscript g_ENGLISH_ORDINAL c in
  let* r := subscript g_ENGLISH_REDUCTION c in
  let* ro := subscript g_ENGLISH_REVERSE_ORDINAL c in
  let* rr := subscript g_ENGLISH_REVERSE_REDUCTION c in
  ret (EnglishRow (upper c) o r ro rr).

Definition compute_english_gematria (text : pystr)
    : M (totals * list english_row) :=
  match text with
  | [] => ret (∅, [])
  | _ :: _ =>
      let* clean_text := english_clean_text text in
      match clean_text with
      | [] => ret (∅, [])
      | _ :: _ =>
          let* ordinal := sum_table g_ENGLISH_ORDINAL clean_text in
          let* reduction := sum_table g_ENGLISH_REDUCTION clean_text in
          let* rev_ordinal := sum_table g_ENGLISH_REVERSE_ORDINAL clean_text in
          let* rev_reduction :=
            sum_table g_ENGLISH_REVERSE_REDUCTION clean_text in
          let results : totals :=
            {[ "English Ordinal" := ordinal;
               "Full Reduction" := reduction;
               "Reverse Ordinal" := rev_ordinal;
               "Reverse Reduction" := rev_reduction ]} in
          let* breakdown := for_each english_entry clean_text in
          ret (results, breakdown)
      end
  end.

(** ** The history update (lines 280-287) *)

(** The entry built at lines 281-285. *)
Definition history_entry_of (is_hebrew : bool) (input_text : pystr)
    (results : totals) : history_entry :=
  HistoryEntry
    (if 30 <? Py.len input_text
     then Py.slice_to 30 input_text ++ [Py.ord_dot; Py.ord_dot; Py.ord_dot]
     else input_text)
    (if is_hebrew then "Hebrew" else "English")
    (if is_hebrew then Py.get results "Standard" 0
     else Py.get results "English Ordinal" 0).

Definition update_history_with (is_hebrew : bool) (input_text : pystr)
    (results : totals) : M unit :=
  match Py.strip input_text with
  | [] => ret tt
  | _ :: _ =>
      let entry := history_entry_of is_hebrew input_text results in
      let* _ := update_history (fun h => entry :: h) in
      update_history (take 5)
  end.

(** The body of the "Calculate" button (lines 227-287) without the
    rendering: one computation, then the history update. *)
Definition calculate (is_hebrew : bool) (input_text : pystr) : M unit :=
  if is_hebrew then
    let* (results, breakdown_data) := compute_hebrew_gematria input_text in
    update_history_with is_hebrew input_text results
  else
    let* (results, breakdown_data) := compute_english_gematria input_text in
    update_history_with is_hebrew input_text results.

End Computation.

(** ** The part of the Unicode database the examples use *)

(** The full compatibility decomposition of the code points that are not
    keys of [HEBREW_VALUES] but decompose into a string holding one: the
    letterlike symbols U+2135 .. U+2138 and the Hebrew presentation forms
    of U+FB1D .. U+FB4F.  All other code points are left as they are here,
    and the canonical reordering of combining marks is left out: it moves
    no letter. *)
Definition compat_decomposition (c : Z) : pystr :=
  match c with
  | 0x2135 => [0x5D0] | 0x2136 => [0x5D1] | 0x2137 => [0x5D2]
  | 0x2138 => [0x5D3]
  | 0xFB1D => [0x5D9; 0x5B4]
  | 0xFB20 => [0x5E2] | 0xFB21 => [0x5D0] | 0xFB22 => [0x5D3]
  | 0xFB23 => [0x5D4] | 0xFB24 => [0x5DB] | 0xFB25 => [0x5DC]
  | 0xFB26 => [0x5DD] | 0xFB27 => [0x5E8] | 0xFB28 => [0x5EA]
  | 0xFB2A => [0x5E9; 0x5C1] | 0xFB2B => [0x5E9; 0x5C2]
  | 0xFB2C => [0x5E9; 0x5BC; 0x5C1] | 0xFB2D => [0x5E9; 0x5BC; 0x5C2]
  | 0xFB2E => [0x5D0; 0x5B7] | 0xFB2F => [0x5D0; 0x5B8]
  | 0xFB30 => [0x5D0; 0x5BC] | 0xFB31 => [0x5D1; 0x5BC]
  | 0xFB32 => [0x5D2; 0x5BC] | 0xFB33 => [0x5D3; 0x5BC]
  | 0xFB34 => [0x5D4; 0x5BC] | 0xFB35 => [0x5D5; 0x5BC]
  | 0xFB36 => [0x5D6; 0x5BC] | 0xFB38 => [0x5D8; 0x5BC]
  | 0xFB39 => [0x5D9; 0x5BC] | 0xFB3A => [0x5DA; 0x5BC]
  | 0xFB3B => [0x5DB; 0x5BC] | 0xFB3C => [0x5DC; 0x5BC]
  | 0xFB3E => [0x5DE; 0x5BC] | 0xFB40 => [0x5E0; 0x5BC]
  | 0xFB41 => [0x5E1; 0x5BC] | 0xFB43 => [0x5E3; 0x5BC]
  | 0xFB44 => [0x5E4; 0x5BC] | 0xFB46 => [0x5E6; 0x5BC]
  | 0xFB47 => [0x5E7; 0x5BC] | 0xFB48 => [0x5E8; 0x5BC]
  | 0xFB49 => [0x5E9; 0x5BC] | 0xFB4A => [0x5EA; 0x5BC]
  | 0xFB4B => [0x5D5; 0x5B9] | 0xFB4C => [0x5D1; 0x5BF]
  | 0xFB4D => [0x5DB; 0x5BF] | 0xFB4E => [0x5E4; 0x5BF]
  | 0xFB4F => [0x5D0; 0x5DC]
  | _ => [c]
  end.

Definition nfkd (s : pystr) : pystr := flat_map compat_decomposition s.

(** [str.lower] above ASCII, for the two code points whose lowercase holds
    an ASCII letter: U+0130 (to "i" and U+0307) and the Kelvin sign U+212A
    (to "k").  All other code points are left as they are here. *)
Definition lower_above_ascii (c : Z) : pystr :=
  if c =? 0x130 then [0x69; 0x307]
  else if c =? 0x212A then [0x6B]
  else [c].

(** [str.upper] above ASCII is never reached by the examples: the program
    applies [upper] to keys of [ENGLISH_ORDINAL] only. *)
Definition upper_above_ascii (c : Z) : pystr := [c].

(** * The vocabulary of the properties *)

(** The mathematical sum of [f] over a list, against which Python's
    left-to-right [sum] is compared. *)
Fixpoint sum_over {A} (f : A -> Z) (l : list A) : Z :=
  match l with
  | [] => 0
  | x :: rest => f x + sum_over f rest
  end.

(** The number of whitespace-delimited tokens of [s]: the positions
    where a character that is not whitespace starts the string or
    follows whitespace. *)
Fixpoint token_starts (after_space : bool) (s : pystr) : nat :=
  match s with
  | [] => 0
  | c :: rest =>
      ((if after_space && negb (Py.isspace c) then 1 else 0)
       + token_starts (Py.isspace c) rest)%nat
  end.

Definition count_tokens (s : pystr) : nat := token_starts true s.

(** A computation that leaves the store as it found it, whatever it
    returns or raises. *)
Definition readonly {A} (m : M A) : Prop := forall s, (m s).2 = s.

(** The characters of [s] that are keys of [table], in order. *)
Definition recognized (table : gmap pystr Z) (s : pystr) : list Z :=
  filter (fun c => is_Some (table !! [c])) s.

(** The table value of a character (0 for a character outside the table). *)
Definition value_of (table : gmap pystr Z) (c : Z) : Z :=
  default 0 (table !! [c]).

(** The letters a call of [compute_hebrew_gematria] on [text] recognizes:
    none for the empty text, which returns before normalizing. *)
Definition hebrew_letters (normalize_NFKD : pystr -> pystr)
    (table : gmap pystr Z) (text : pystr) : list Z :=
  match text with
  | [] => []
  | _ :: _ => recognized table (normalize_NFKD text)
  end.

(** The code point of a one-character string holding a lowercase ASCII
    letter, "a" (97) to "z" (122). *)
Definition az_code (k : pystr) : option Z :=
  match k with
  | [c] => if bool_decide (97 <= c <= 122) then Some c else None
  | _ => None
  end.

(** A one-character string that is a lowercase letter "a" .. "z". *)
Definition is_az (k : pystr) : Prop := exists x, k = [x] /\ 97 <= x <= 122.

(** The letter tables as the alphabet defines them, on the code point [x]
    of a letter "a" .. "z": the ordinal a=1 .. z=26, its reduction, the
    reverse ordinal a=26 .. z=1 and the reduction of that. *)
Definition alphabet_ordinal (x : Z) : Z := x - 96.
Definition alphabet_reduction (x : Z) : Z := (alphabet_ordinal x - 1) mod 9 + 1.
Definition alphabet_reverse_ordinal (x : Z) : Z := 123 - x.
Definition alphabet_reverse_reduction (x : Z) : Z :=
  (alphabet_reverse_ordinal x - 1) mod 9 + 1.

(** The letters a call of [compute_english_gematria] keeps: for each
    character whose lowercase is one of "a" .. "z", the code point of that
    lowercase letter, in order. *)
Definition english_letters (lower_nonascii : Z -> pystr) (text : pystr)
    : list Z :=
  omap (fun c => az_code (lower lower_nonascii c)) text.

(** One row of the breakdown for the letter with code point [x]. *)
Definition english_row_of (x : Z) : english_row :=
  EnglishRow [x - 32] (alphabet_ordinal x) (alphabet_reduction x)
    (alphabet_reverse_ordinal x) (alphabet_reverse_reduction x).

(** The position in the alphabet of an ASCII letter of either case. *)
Definition letter_ordinal (c : Z) : Z := if c <=? 90 then c - 64 else c - 96.

(** The totals the selected computation returns on [input_text]. *)
Definition results_of (normalize_NFKD : pystr -> pystr)
    (lower_nonascii upper_nonascii : Z -> pystr)
    (is_hebrew : bool) (input_text : pystr) : totals :=
  if is_hebrew then
    match (compute_hebrew_gematria normalize_NFKD input_text
             (module_store [])).1 with
    | Returns r => r.1
    | Raises _ => ∅
    end
  else
    match (compute_english_gematria lower_nonascii upper_nonascii input_text
             (module_store [])).1 with
    | Returns r => r.1
    | Raises _ => ∅
    end.

(** The history entry of one press of "Calculate". *)
Definition calculated_entry (normalize_NFKD : pystr -> pystr)
    (lower_nonascii upper_nonascii : Z -> pystr)
    (call : bool * pystr) : history_entry :=
  history_entry_of call.1 call.2
    (results_of normalize_NFKD lower_nonascii upper_nonascii call.1 call.2).

(** Pressing "Calculate" once per element of [calls], in order. *)
Fixpoint calculate_all (normalize_NFKD : pystr -> pystr)
    (lower_nonascii upper_nonascii : Z -> pystr)
    (calls : list (bool * pystr)) : M unit :=
  match calls with
  | [] => ret tt
  | call :: rest =>
      let* _ := calculate normalize_NFKD lower_nonascii upper_nonascii
                  call.1 call.2 in
      calculate_all normalize_NFKD lower_nonascii upper_nonascii rest
  end.

(** "שלום": shin, lamed, vav, final mem. *)
Definition shalom : pystr := [0x5E9; 0x5DC; 0x5D5; 0x5DD].

(** "abc" and "123". *)
Definition abc : pystr := [97; 98; 99].
Definition digits123 : pystr := [49; 50; 51].

(** Seven presses of "Calculate", none on a blank input. *)
Definition seven_calls : list (bool * pystr) :=
  [ (false, [97]); (false, [98]); (true, shalom); (false, [100]);
    (true, [0x5D0]); (false, abc); (true, [0x5D1]) ].

(** * The page around the computation (section 4 of [app.py]) *)

(** More of Python's [str] and [list]. *)
Module PyStr.

(** A string literal of ASCII characters, as code points. *)
Definition of_ascii (s : string) : pystr :=
  (fun a => Z.of_N (Ascii.N_of_ascii a)) <$> String.list_ascii_of_string s.

(** [s.startswith(prefix)]. *)
Fixpoint startswith (s prefix : pystr) : bool :=
  match prefix, s with
  | [], _ => true
  | _ :: _, [] => false
  | a :: prefix', b :: s' => (a =? b) && startswith s' prefix'
  end.

(** [needle in haystack] for two strings: [needle] occurs at some
    position of [haystack]. *)
Fixpoint substring_in (needle haystack : pystr) : bool :=
  startswith haystack needle
  || match haystack with
     | [] => false
     | _ :: rest => substring_in needle rest
     end.

End PyStr.

Module Page.

(** The options of the language select box (line 175): "Hebrew" and
    "English", each followed by a space and a flag. *)
Definition option_hebrew : pystr :=
  PyStr.of_ascii "Hebrew " ++ [0x1F1EE; 0x1F1F1].
Definition option_english : pystr :=
  PyStr.of_ascii "English " ++ [0x1F1FA; 0x1F1F8].
Definition language_options : list pystr := [option_hebrew; option_english].

(** Lines 158-170: the defaults read from the URL parameters,
    [(default_lang_idx, default_text)].  A parameter is subscripted only
    after the [in] test on the same key. *)
Definition read_query_params (query_params : gmap string pystr)
    : Z * pystr :=
  let default_lang_idx := 0 in
  let default_text : pystr := [] in
  let default_lang_idx :=
    match query_params !! "lang" with
    | Some lang_param =>
        if bool_decide (lang_param = PyStr.of_ascii "english") then 1
        else if bool_decide (lang_param = PyStr.of_ascii "hebrew") then 0
        else default_lang_idx
    | None => default_lang_idx
    end in
  let default_text :=
    match query_params !! "text" with
    | Some text => text
    | None => default_text
    end in
  (default_lang_idx, default_text).

(** What [st.selectbox(_, options, index=index)] holds before the user
    touches it: [options[index]]. *)
Definition selectbox_initial (options : list pystr) (index : Z)
    : option pystr :=
  if index <? 0 then None else options !! Z.to_nat index.

(** Lines 188-201: what the page derives from the selected language. *)
Record settings := Settings {
  title : pystr;
  input_placeholder : pystr;
  is_hebrew : bool;
  primary_color_cls : pystr;
  direction : pystr;
  lang_key : pystr
}.

Definition settings_of (language : pystr) : settings :=
  if PyStr.substring_in (PyStr.of_ascii "Hebrew") language then
    Settings
      ([0x1F9EE] ++ PyStr.of_ascii " Gematria Calculator " ++ [0x2022; 32]
       ++ [0x5D7; 0x5E9; 0x5D1; 0x5D5; 0x5DF; 32;
           0x5D2; 0x5D9; 0x5DE; 0x5D8; 0x5E8; 0x5D9; 0x5D4])
      ([0x5D4; 0x5E7; 0x5DC; 0x5D3; 32; 0x5DE; 0x5D9; 0x5DC; 0x5D4; 32;
        0x5D0; 0x5D5; 32; 0x5D1; 0x5D9; 0x5D8; 0x5D5; 0x5D9; 32;
        0x5DB; 0x5D0; 0x5DF] ++ PyStr.of_ascii "... ("
       ++ [0x5DC; 0x5DE; 0x5E9; 0x5DC; 58; 32;
           0x5D1; 0x5E8; 0x5D0; 0x5E9; 0x5D9; 0x5EA; 32;
           0x5D1; 0x5E8; 0x5D0; 41])
      true
      (PyStr.of_ascii "hebrew-metric")
      (PyStr.of_ascii "rtl")
      (PyStr.of_ascii "hebrew")
  else
    Settings
      ([0x1F9EE] ++ PyStr.of_ascii " Gematria Calculator")
      (PyStr.of_ascii "Enter word or phrase here... (e.g., Hello World)")
      false
      (PyStr.of_ascii "english-metric")
      (PyStr.of_ascii "ltr")
      (PyStr.of_ascii "english").

(** Lines 221-222: "Calculate" writes the language key and the input text
    to the URL parameters. *)
Definition write_query_params (lang_key input_text : pystr)
    (query_params : gmap string pystr) : gmap string pystr :=
  <["text" := input_text]> (<["lang" := lang_key]> query_params).

(** What the page puts on the screen. *)
Inductive widget :=
| ColoredMetric (col : Z) (direction primary_color_cls : pystr)
    (label : string) (value : Z) (icon : pystr)
| GoldMetric (col : Z) (label : string) (value : Z)
| Code (col : Z) (value : Z)
| Warning (message : string)
| HistoryItem (col : Z) (item : history_entry).

(** Rendering either gets to its end with what it has shown, or stops
    at the exception a subscript raised. *)
Inductive render_error :=
| IndexError (index : Z)
| TotalsKeyError (key : string).

Inductive rendered (A : Type) :=
| Shown (a : A)
| Crashed (e : render_error).
Arguments Shown {A} a.
Arguments Crashed {A} e.

Definition and_then {A B} (r : rendered A) (k : A -> rendered B)
    : rendered B :=
  match r with
  | Shown a => k a
  | Crashed e => Crashed e
  end.

(** [l[i]] on a list, for [0 <= i]. *)
Definition list_getitem {A} (l : list A) (i : Z) : rendered A :=
  match l !! Z.to_nat i with
  | Some x => Shown x
  | None => Crashed (IndexError i)
  end.


(** [st.columns(n)]: the columns, numbered from 0. *)
Definition columns (n : Z) : list Z := Py.range n.

(** Lines 232-242: a card, and the value again as a copyable code block
    when it is positive. *)
Definition colored_metric (direction primary_color_cls : pystr)
    (col : Z) (label : string) (value : Z) (icon : pystr) : list widget :=
  ColoredMetric col direction primary_color_cls label value icon
  :: (if 0 <? value then [Code col value] else []).

(** Lines 244-247. *)
Definition render_hebrew_metrics (direction primary_color_cls : pystr)
    (results : totals) : list widget :=
  colored_metric direction primary_color_cls 0 "Standard (Ragil)"
    (Py.get results "Standard" 0) [0x2721; 0xFE0F]
  ++ colored_metric direction primary_color_cls 1 "Mispar Katan"
       (Py.get results "Mispar Katan" 0) [0x1F522]
  ++ colored_metric direction primary_color_cls 2 "Letter Count"
       (Py.get results "Letters" 0) [0x1F4DD]
  ++ colored_metric direction primary_color_cls 3 "Word Count"
       (Py.get results "Words" 0) [0x1F4D1].



(** Lines 294-298: the loop over [enumerate(history)], [i] being the
    index of the first of [items]. *)
Fixpoint render_history_items (hist_cols : list Z) (i : Z)
    (items : list history_entry) : rendered (list widget) :=
  match items with
  | [] => Shown []
  | item :: rest =>
      and_then (list_getitem hist_cols i) (fun col =>
      and_then (render_history_items hist_cols (i + 1) rest) (fun shown =>
      Shown (HistoryItem col item :: shown)))
  end.

(** Lines 290-298: the history section, shown when the history is not
    empty. *)
Definition render_history (history : list history_entry)
    : rendered (list widget) :=
  match history with
  | [] => Shown []
  | _ :: _ =>
      let hist_cols := columns 5 in
      render_history_items hist_cols 0 history
  end.

End Page.

(** * More vocabulary *)

(** An ASCII letter in the other case; any other character as it is. *)
Definition ascii_upper (c : Z) : Z :=
  if (97 <=? c) && (c <=? 122) then c - 32 else c.
Definition ascii_lower (c : Z) : Z :=
  if (65 <=? c) && (c <=? 90) then c + 32 else c.

(** [str.casefold] on one code point.  Above ASCII, the case folding of
    the code points whose folding holds an ASCII letter; all other code
    points are left as they are here. *)
Definition casefold_above_ascii (c : Z) : pystr :=
  match c with
  | 0xDF => [0x73; 0x73] | 0x130 => [0x69; 0x307] | 0x149 => [0x2BC; 0x6E]
  | 0x17F => [0x73] | 0x1F0 => [0x6A; 0x30C]
  | 0x1E96 => [0x68; 0x331] | 0x1E97 => [0x74; 0x308]
  | 0x1E98 => [0x77; 0x30A] | 0x1E99 => [0x79; 0x30A]
  | 0x1E9A => [0x61; 0x2BE] | 0x1E9E => [0x73; 0x73]
  | 0x212A => [0x6B]
  | 0xFB00 => [0x66; 0x66] | 0xFB01 => [0x66; 0x69] | 0xFB02 => [0x66; 0x6C]
  | 0xFB03 => [0x66; 0x66; 0x69] | 0xFB04 => [0x66; 0x66; 0x6C]
  | 0xFB05 => [0x73; 0x74] | 0xFB06 => [0x73; 0x74]
  | _ => [c]
  end.

Definition casefold (c : Z) : pystr :=
  if (65 <=? c) && (c <=? 90) then [c + 32]
  else if c <? 128 then [c]
  else casefold_above_ascii c.

(** * Properties *)

(** ** Python built-ins *)

Module PyFacts.

Lemma fold_add_shift (xs : list Z) (a : Z) :
  fold_left Z.add xs a = a + fold_left Z.add xs 0.
Proof.
  revert a. induction xs as [|x xs IH]; intros a; simpl; [lia|].
  rewrite (IH (a + x)), (IH (0 + x)). lia.
Qed.

Lemma sum_cons (x : Z) (xs : list Z) : Py.sum (x :: xs) = x + Py.sum xs.
Proof. unfold Py.sum. simpl. apply fold_add_shift. Qed.

Lemma sum_fmap {A} (f : A -> Z) (l : list A) :
  Py.sum (f <$> l) = sum_over f l.
Proof.
  induction l as [|x l IH]; [reflexivity|].
  rewrite fmap_cons, sum_cons, IH. reflexivity.
Qed.

Lemma sum_over_fmap {A B} (g : A -> B) (f : B -> Z) (l : list A) :
  sum_over f (g <$> l) = sum_over (fun x => f (g x)) l.
Proof.
  induction l as [|x l IH]; [reflexivity|].
  rewrite fmap_cons. simpl. by rewrite IH.
Qed.

Lemma sum_over_ext {A} (f g : A -> Z) (l : list A) :
  (forall x, x ∈ l -> f x = g x) -> sum_over f l = sum_over g l.
Proof.
  induction l as [|x l IH]; intros Hfg; simpl; [reflexivity|].
  rewrite (Hfg x) by left. rewrite IH; [reflexivity|].
  intros y Hy. apply Hfg. by right.
Qed.

Lemma length_split_from (cur : option pystr) (s : pystr) :
  length (Py.split_from cur s)
  = (token_starts (bool_decide (cur = None)) s
     + (if cur is Some _ then 1 else 0))%nat.
Proof.
  revert cur. induction s as [|c s IH]; intros cur.
  - destruct cur; reflexivity.
  - simpl. destruct (Py.isspace c) eqn:Hc.
    + destruct cur as [w|]; simpl; rewrite IH; simpl; lia.
    + rewrite IH. destruct cur as [w|]; simpl; lia.
Qed.

Lemma length_split (s : pystr) : length (Py.split s) = count_tokens s.
Proof.
  unfold Py.split, count_tokens. rewrite length_split_from. simpl. lia.
Qed.

(** The tokens of [split], put end to end, are the characters that are
    not whitespace, and no token is empty or holds whitespace. *)
Lemma concat_split_from (cur : option pystr) (s : pystr) :
  concat (Py.split_from cur s)
  = default [] cur ++ filter (fun c => Py.isspace c = false) s.
Proof.
  revert cur. induction s as [|c s IH]; intros cur.
  - destruct cur; cbn; by rewrite ?app_nil_r.
  - cbn [Py.split_from]. destruct (Py.isspace c) eqn:Hc.
    + rewrite filter_cons_False by (by rewrite Hc).
      destruct cur as [w|]; cbn [concat default]; by rewrite IH.
    + rewrite filter_cons_True by done. rewrite IH.
      change (default [] (Some (default [] cur ++ [c])))
        with (default [] cur ++ [c]).
      by rewrite <- app_assoc.
Qed.

Lemma concat_split (s : pystr) :
  concat (Py.split s) = filter (fun c => Py.isspace c = false) s.
Proof. apply (concat_split_from None). Qed.

Lemma split_from_tokens (cur : option pystr) (s : pystr) :
  (forall w, cur = Some w ->
     w <> [] /\ Forall (fun c => Py.isspace c = false) w) ->
  Forall (fun w => w <> [] /\ Forall (fun c => Py.isspace c = false) w)
    (Py.split_from cur s).
Proof.
  revert cur. induction s as [|c s IH]; intros cur Hcur.
  - destruct cur as [w|]; [|constructor].
    constructor; [by apply Hcur|constructor].
  - cbn [Py.split_from]. destruct (Py.isspace c) eqn:Hc.
    + destruct cur as [w|].
      * constructor; [by apply Hcur|]. by apply IH.
      * by apply IH.
    + apply IH. intros w [= <-]. split.
      * by destruct (default [] cur).
      * apply Forall_app. split; [|by repeat constructor].
        destruct cur as [w|]; [by apply Hcur|constructor].
Qed.

Lemma split_tokens (s : pystr) :
  Forall (fun w => w <> [] /\ Forall (fun c => Py.isspace c = false) w)
    (Py.split s).
Proof. by apply split_from_tokens. Qed.

(** A dict built from items with distinct keys holds exactly the items. *)
Lemma fold_insert_lookup {V} (items : list (pystr * V)) (d : gmap pystr V)
    (k : pystr) (v : V) :
  NoDup items.*1 ->
  fold_left (fun d kv => <[kv.1 := kv.2]> d) items d !! k = Some v
  <-> ((k, v) ∈ items) \/ ((k ∉ items.*1) /\ d !! k = Some v).
Proof.
  revert d. induction items as [|[k0 v0] items IH]; intros d Hnd.
  - simpl. split; [intros Hd; right; split; [apply not_elem_of_nil|done]|].
    intros [Hin|[_ Hd]]; [by apply elem_of_nil in Hin|done].
  - rewrite fmap_cons in Hnd. apply NoDup_cons in Hnd as [Hk0 Hnd].
    cbn [fold_left]. rewrite (IH _ Hnd). rewrite fmap_cons, not_elem_of_cons.
    rewrite elem_of_cons. cbn [fst snd]. destruct (decide (k0 = k)) as [->|Hne].
    + rewrite lookup_insert_eq. split.
      * intros [Hin|[_ Heq]].
        -- exfalso. apply Hk0. apply list_elem_of_fmap. by exists (k, v).
        -- left. left. congruence.
      * intros [[Heq|Hin]|[[Hne _] _]]; [|by left|done].
        right. split; [done|]. congruence.
    + rewrite lookup_insert_ne by done. split.
      * intros [Hin|[Hnin Hd]]; [left; by right|right; done].
      * intros [[Heq|Hin]|[[_ Hnin] Hd]]; [congruence|by left|by right].
Qed.

Lemma dict_of_lookup {V} (items : list (pystr * V)) (k : pystr) (v : V) :
  NoDup items.*1 -> Py.dict_of items !! k = Some v <-> (k, v) ∈ items.
Proof.
  intros Hnd. unfold Py.dict_of. rewrite fold_insert_lookup by done.
  rewrite lookup_empty. split; [|by left].
  intros [Hin|[_ Hd]]; [done|discriminate].
Qed.

End PyFacts.

(** ** The tables *)

Section Tables.

Lemma az_code_Some (k : pystr) (x : Z) :
  az_code k = Some x <-> k = [x] /\ 97 <= x <= 122.
Proof.
  unfold az_code. split.
  - destruct k as [|c [|]]; try discriminate.
    case_bool_decide; [|discriminate]. by intros [= <-].
  - intros [-> Hx]. by rewrite bool_decide_true.
Qed.

(** What a comprehension over [range(26)] keyed by [chr(ord('a') + i)]
    holds. *)
Lemma comprehension_lookup_iff (val : Z -> Z) (k : pystr) (v : Z) :
  Py.dict_of ((fun i => ([Py.ord_a + i], val i)) <$> Py.range 26) !! k = Some v
  <-> exists i, 0 <= i < 26 /\ k = [97 + i] /\ v = val i.
Proof.
  rewrite PyFacts.dict_of_lookup.
  - rewrite list_elem_of_fmap. unfold Py.range, Py.ord_a. split.
    + intros (i & Heq & Hi). apply elem_of_seqZ in Hi.
      exists i. inversion Heq. repeat split; lia.
    + intros (i & Hi & -> & ->). exists i. split; [done|].
      apply elem_of_seqZ. lia.
  - rewrite <- list_fmap_compose. apply NoDup_fmap_2; [|apply NoDup_seqZ].
    intros i j Hij. cbn in Hij. inversion Hij. lia.
Qed.

Lemma comprehension_lookup (val : Z -> Z) (k : pystr) :
  Py.dict_of ((fun i => ([Py.ord_a + i], val i)) <$> Py.range 26) !! k
  = (fun x => val (x - 97)) <$> az_code k.
Proof.
  apply option_eq. intros v. rewrite comprehension_lookup_iff.
  rewrite fmap_Some. split.
  - intros (i & Hi & -> & ->). exists (97 + i). split.
    + apply az_code_Some. split; [done|lia].
    + f_equal. lia.
  - intros (x & [-> Hx]%az_code_Some & ->).
    exists (x - 97). repeat split; [lia|lia|f_equal; lia].
Qed.

Lemma ENGLISH_ORDINAL_lookup (k : pystr) :
  ENGLISH_ORDINAL !! k = (fun x => x - 97 + 1) <$> az_code k.
Proof. apply (comprehension_lookup (fun i => i + 1)). Qed.

Lemma ENGLISH_REDUCTION_lookup (k : pystr) :
  ENGLISH_REDUCTION !! k = (fun x => (x - 97) mod 9 + 1) <$> az_code k.
Proof. apply (comprehension_lookup (fun i => i mod 9 + 1)). Qed.

Lemma ENGLISH_REVERSE_ORDINAL_lookup (k : pystr) :
  ENGLISH_REVERSE_ORDINAL !! k = (fun x => 26 - (x - 97)) <$> az_code k.
Proof. apply (comprehension_lookup (fun i => 26 - i)). Qed.

Lemma ENGLISH_REVERSE_REDUCTION_lookup (k : pystr) :
  ENGLISH_REVERSE_REDUCTION !! k
  = (fun x => (25 - (x - 97)) mod 9 + 1) <$> az_code k.
Proof. apply (comprehension_lookup (fun i => (25 - i) mod 9 + 1)). Qed.

End Tables.

(** ** The monad *)

Section MonadFacts.

Context {A B : Type}.

Lemma bind_returns (m : M A) (k : A -> M B) (s s' : store) (a : A) :
  m s = (Returns a, s') -> bind m k s = k a s'.
Proof. intros Hm. unfold bind. by rewrite Hm. Qed.

Lemma bind_raises (m : M A) (k : A -> M B) (s s' : store) (e : exn) :
  m s = (Raises e, s') -> bind m k s = (Raises e, s').
Proof. intros Hm. unfold bind. by rewrite Hm. Qed.

Lemma readonly_ret (a : A) : readonly (ret a).
Proof. intros s. reflexivity. Qed.

Lemma readonly_raise (e : exn) : readonly (@raise A e).
Proof. intros s. reflexivity. Qed.

Lemma readonly_read (field : store -> A) : readonly (read field).
Proof. intros s. reflexivity. Qed.

End MonadFacts.

Lemma readonly_bind {A B} (m : M A) (k : A -> M B) :
  readonly m -> (forall a, readonly (k a)) -> readonly (bind m k).
Proof.
  intros Hm Hk s. unfold bind. specialize (Hm s).
  destruct (m s) as [[a|e] s']; cbn in Hm; subst s'; [apply Hk|reflexivity].
Qed.

Lemma readonly_getitem (d : gmap pystr Z) (k : pystr) : readonly (getitem d k).
Proof.
  unfold getitem. destruct (d !! k); [apply readonly_ret|apply readonly_raise].
Qed.

Lemma readonly_for_each {A B} (f : A -> M B) (l : list A) :
  (forall x, readonly (f x)) -> readonly (for_each f l).
Proof.
  intros Hf. induction l as [|x l IH]; [apply readonly_ret|].
  cbn [for_each]. apply readonly_bind; [apply Hf|]. intros y.
  apply readonly_bind; [apply IH|]. intros ys. apply readonly_ret.
Qed.

(** Two calls in a row of a read-only computation see the same store and
    so come out the same. *)
Lemma readonly_twice {A} (m : M A) (s : store) :
  readonly m ->
  exists r, m s = (r, s) /\ m (m s).2 = (r, s).
Proof.
  intros Hm. pose proof (Hm s) as Hs. destruct (m s) as [r s'] eqn:Heq.
  cbn in Hs. subst s'. exists r. cbn. by rewrite Heq.
Qed.

(** ** [compute_hebrew_gematria] *)

Section HebrewFacts.

Variable normalize_NFKD : pystr -> pystr.

Lemma hebrew_scan_eval (s : store) (chars : pystr)
    (clean_chars : list pystr) (clean_values : list Z) :
  hebrew_scan chars clean_chars clean_values s
  = (Returns
       (clean_chars
          ++ ((fun c => [c]) <$> recognized (g_HEBREW_VALUES s) chars),
        clean_values
          ++ (value_of (g_HEBREW_VALUES s)
                <$> recognized (g_HEBREW_VALUES s) chars)), s).
Proof.
  revert clean_chars clean_values.
  induction chars as [|c chars IH]; intros cc cv.
  - cbn. by rewrite !app_nil_r.
  - cbn [hebrew_scan]. unfold bind at 1, read at 1. unfold Py.contains.
    unfold recognized.
    destruct (g_HEBREW_VALUES s !! [c]) as [v|] eqn:Hc.
    + rewrite bool_decide_true by (by exists v).
      unfold bind at 1, read at 1. unfold bind at 1, getitem. rewrite Hc.
      unfold ret at 1. rewrite IH.
      rewrite filter_cons_True by (by exists v).
      rewrite !fmap_cons. unfold value_of at 2. rewrite Hc. cbn [default].
      by rewrite <- !app_assoc.
    + rewrite bool_decide_false by apply is_Some_None.
      rewrite IH. rewrite filter_cons_False; [done|].
      rewrite Hc. apply is_Some_None.
Qed.

Lemma zip_fmap_fmap {A B C D} (f : A -> B) (g : A -> C) (h : B * C -> D)
    (l : list A) :
  h <$> zip (f <$> l) (g <$> l) = (fun x => h (f x, g x)) <$> l.
Proof.
  induction l as [|x l IH]; [reflexivity|].
  rewrite !fmap_cons. cbn. by rewrite IH.
Qed.

(** What a call returns, in every case, in terms of the letters it
    recognizes. *)
Lemma compute_hebrew_eval (s : store) (text : pystr) :
  let table := g_HEBREW_VALUES s in
  let letters := hebrew_letters normalize_NFKD table text in
  compute_hebrew_gematria normalize_NFKD text s
  = (Returns
       ({[ "Standard" := sum_over (value_of table) letters;
           "Mispar Katan" :=
             sum_over (fun c => (value_of table c - 1) mod 9 + 1) letters;
           "Letters" := Py.len letters;
           "Words" := Py.len (Py.split text) ]},
        (fun c => HebrewRow [c] (value_of table c)
                    ((value_of table c - 1) mod 9 + 1)) <$> letters), s).
Proof.
  intros table letters. destruct text as [|c0 text]; [reflexivity|].
  unfold compute_hebrew_gematria.
  erewrite bind_returns by apply hebrew_scan_eval.
  subst letters. unfold hebrew_letters. fold table.
  destruct (recognized table (normalize_NFKD (c0 :: text)))
    as [|l letters]; [reflexivity|].
  cbn [app fmap list_fmap zip_with]. unfold ret.
  rewrite !PyFacts.sum_cons, <- list_fmap_compose, !PyFacts.sum_fmap.
  unfold Py.len. cbn [length]. rewrite length_fmap.
  rewrite (zip_fmap_fmap (fun c => [c]) (value_of table)
             (fun cv => HebrewRow cv.1 cv.2 (small cv.2))).
  reflexivity.
Qed.

Lemma readonly_hebrew_scan (chars : pystr) (cc : list pystr) (cv : list Z) :
  readonly (hebrew_scan chars cc cv).
Proof. intros s. by rewrite hebrew_scan_eval. Qed.

Lemma readonly_compute_hebrew (text : pystr) :
  readonly (compute_hebrew_gematria normalize_NFKD text).
Proof. intros s. by rewrite compute_hebrew_eval. Qed.

End HebrewFacts.

(** ** [compute_english_gematria] *)

Section EnglishFacts.

Variable lower_nonascii : Z -> pystr.
Variable upper_nonascii : Z -> pystr.

Lemma english_letters_az (text : pystr) (x : Z) :
  x ∈ english_letters lower_nonascii text -> 97 <= x <= 122.
Proof.
  unfold english_letters. rewrite list_elem_of_omap.
  intros (c & _ & Hx). by apply az_code_Some in Hx as [_ Hx].
Qed.

Lemma english_clean_text_eval (h : list history_entry) (text : pystr) :
  english_clean_text lower_nonascii text (module_store h)
  = (Returns ((fun x => [x]) <$> english_letters lower_nonascii text), module_store h).
Proof.
  induction text as [|c text IH]; [reflexivity|].
  cbn [english_clean_text]. unfold bind at 1, read at 1.
  cbn [module_store g_ENGLISH_ORDINAL]. unfold Py.contains.
  rewrite ENGLISH_ORDINAL_lookup. unfold english_letters.
  cbn [omap list_omap]. fold (english_letters lower_nonascii text).
  destruct (az_code (lower lower_nonascii c)) as [x|] eqn:Hc.
  - rewrite bool_decide_true by (by eexists).
    erewrite bind_returns by apply IH.
    apply az_code_Some in Hc as [-> _]. reflexivity.
  - rewrite bool_decide_false by apply is_Some_None. apply IH.
Qed.

Lemma subscript_eval (table : store -> gmap pystr Z) (s : store)
    (k : pystr) (v : Z) :
  table s !! k = Some v -> subscript table k s = (Returns v, s).
Proof.
  intros Hk. unfold subscript, bind, read, getitem. by rewrite Hk.
Qed.

Lemma for_each_subscript_eval (table : store -> gmap pystr Z) (f : Z -> Z)
    (s : store) (letters : list Z) :
  (forall x, x ∈ letters -> table s !! [x] = Some (f x)) ->
  for_each (subscript table) ((fun x => [x]) <$> letters) s
  = (Returns (f <$> letters), s).
Proof.
  induction letters as [|x letters IH]; intros Hf; [reflexivity|].
  rewrite fmap_cons. cbn [for_each].
  erewrite bind_returns by (apply subscript_eval, Hf; left).
  erewrite bind_returns; [reflexivity|].
  apply IH. intros y Hy. apply Hf. by right.
Qed.

Lemma sum_table_eval (table : store -> gmap pystr Z) (f : Z -> Z)
    (s : store) (letters : list Z) :
  (forall x, x ∈ letters -> table s !! [x] = Some (f x)) ->
  sum_table table ((fun x => [x]) <$> letters) s
  = (Returns (sum_over f letters), s).
Proof.
  intros Hf. unfold sum_table.
  erewrite bind_returns by (by apply for_each_subscript_eval).
  unfold ret. by rewrite PyFacts.sum_fmap.
Qed.

Lemma table_values (x : Z) :
  97 <= x <= 122 ->
  ENGLISH_ORDINAL !! [x] = Some (alphabet_ordinal x)
  /\ ENGLISH_REDUCTION !! [x] = Some (alphabet_reduction x)
  /\ ENGLISH_REVERSE_ORDINAL !! [x] = Some (alphabet_reverse_ordinal x)
  /\ ENGLISH_REVERSE_REDUCTION !! [x] = Some (alphabet_reverse_reduction x).
Proof.
  intros Hx.
  rewrite ENGLISH_ORDINAL_lookup, ENGLISH_REDUCTION_lookup,
    ENGLISH_REVERSE_ORDINAL_lookup, ENGLISH_REVERSE_REDUCTION_lookup.
  unfold az_code. rewrite bool_decide_true by done. cbn [fmap option_fmap option_map].
  unfold alphabet_reduction, alphabet_reverse_reduction,
    alphabet_reverse_ordinal, alphabet_ordinal.
  repeat split; f_equal; try lia; f_equal; f_equal; lia.
Qed.

Lemma english_entry_eval (h : list history_entry) (x : Z) :
  97 <= x <= 122 ->
  english_entry upper_nonascii [x] (module_store h)
  = (Returns (english_row_of x), module_store h).
Proof.
  intros Hx. destruct (table_values x Hx) as (Ho & Hr & Hro & Hrr).
  unfold english_entry.
  erewrite bind_returns by (apply subscript_eval; exact Ho).
  erewrite bind_returns by (apply subscript_eval; exact Hr).
  erewrite bind_returns by (apply subscript_eval; exact Hro).
  erewrite bind_returns by (apply subscript_eval; exact Hrr).
  unfold ret, english_row_of, upper, upper_char. cbn [flat_map app].
  replace ((97 <=? x) && (x <=? 122)) with true
    by (symmetry; apply andb_true_iff; lia).
  reflexivity.
Qed.

Lemma for_each_english_entry_eval (h : list history_entry)
    (letters : list Z) :
  (forall x, x ∈ letters -> 97 <= x <= 122) ->
  for_each (english_entry upper_nonascii) ((fun x => [x]) <$> letters)
    (module_store h)
  = (Returns (english_row_of <$> letters), module_store h).
Proof.
  induction letters as [|x letters IH]; intros Haz; [reflexivity|].
  rewrite fmap_cons. cbn [for_each].
  erewrite bind_returns by (apply english_entry_eval, Haz; left).
  erewrite bind_returns; [reflexivity|].
  apply IH. intros y Hy. apply Haz. by right.
Qed.

(** What a call returns, in every case, in terms of the letters it
    keeps. *)
Lemma compute_english_eval (h : list history_entry) (text : pystr) :
  compute_english_gematria lower_nonascii upper_nonascii text (module_store h)
  = (Returns
       (match english_letters lower_nonascii text with
        | [] => ∅
        | _ :: _ =>
            {[ "English Ordinal" :=
                 sum_over alphabet_ordinal (english_letters lower_nonascii text);
               "Full Reduction" :=
                 sum_over alphabet_reduction (english_letters lower_nonascii text);
               "Reverse Ordinal" :=
                 sum_over alphabet_reverse_ordinal (english_letters lower_nonascii text);
               "Reverse Reduction" :=
                 sum_over alphabet_reverse_reduction
                   (english_letters lower_nonascii text) ]}
        end,
        english_row_of <$> english_letters lower_nonascii text), module_store h).
Proof.
  destruct text as [|c0 text]; [reflexivity|].
  unfold compute_english_gematria.
  erewrite bind_returns by apply english_clean_text_eval.
  pose proof (english_letters_az (c0 :: text)) as Haz.
  destruct (english_letters lower_nonascii (c0 :: text)) as [|x letters]; [reflexivity|].
  remember ((fun x => [x]) <$> x :: letters) as keys eqn:Hk.
  destruct keys as [|k keys]; [discriminate|]. cbv beta iota. rewrite Hk.
  assert (forall y, y ∈ x :: letters ->
            ENGLISH_ORDINAL !! [y] = Some (alphabet_ordinal y)
            /\ ENGLISH_REDUCTION !! [y] = Some (alphabet_reduction y)
            /\ ENGLISH_REVERSE_ORDINAL !! [y]
               = Some (alphabet_reverse_ordinal y)
            /\ ENGLISH_REVERSE_REDUCTION !! [y]
               = Some (alphabet_reverse_reduction y)) as Htab
    by (intros y Hy; apply table_values, Haz, Hy).
  erewrite bind_returns
    by (apply sum_table_eval; intros y Hy; apply (Htab y Hy)).
  erewrite bind_returns
    by (apply sum_table_eval; intros y Hy; apply (Htab y Hy)).
  erewrite bind_returns
    by (apply sum_table_eval; intros y Hy; apply (Htab y Hy)).
  erewrite bind_returns
    by (apply sum_table_eval; intros y Hy; apply (Htab y Hy)).
  erewrite bind_returns by (apply for_each_english_entry_eval, Haz).
  reflexivity.
Qed.

(** Neither function writes to the store, whatever the tables hold. *)
Lemma readonly_subscript (table : store -> gmap pystr Z) (k : pystr) :
  readonly (subscript table k).
Proof.
  apply readonly_bind; [apply readonly_read|]. intros d.
  apply readonly_getitem.
Qed.

Lemma readonly_sum_table (table : store -> gmap pystr Z)
    (keys : list pystr) :
  readonly (sum_table table keys).
Proof.
  apply readonly_bind; [|intros vs; apply readonly_ret].
  apply readonly_for_each, readonly_subscript.
Qed.

Lemma readonly_english_clean_text (text : pystr) :
  readonly (english_clean_text lower_nonascii text).
Proof.
  induction text as [|c text IH]; [apply readonly_ret|].
  cbn [english_clean_text]. apply readonly_bind; [apply readonly_read|].
  intros d. destruct (Py.contains d (lower lower_nonascii c)); [|apply IH].
  apply readonly_bind; [apply IH|]. intros tl. apply readonly_ret.
Qed.

Lemma readonly_english_entry (c : pystr) :
  readonly (english_entry upper_nonascii c).
Proof.
  unfold english_entry.
  repeat (apply readonly_bind; [apply readonly_subscript|]; intros ?).
  apply readonly_ret.
Qed.

Lemma readonly_compute_english (text : pystr) :
  readonly (compute_english_gematria lower_nonascii upper_nonascii text).
Proof.
  destruct text as [|c0 text]; [apply readonly_ret|].
  unfold compute_english_gematria.
  apply readonly_bind; [apply readonly_english_clean_text|].
  intros [|k keys]; [apply readonly_ret|].
  repeat (apply readonly_bind; [apply readonly_sum_table|]; intros ?).
  apply readonly_bind; [|intros ?; apply readonly_ret].
  apply readonly_for_each, readonly_english_entry.
Qed.

End EnglishFacts.

(** ** The totals dicts *)

Lemma hebrew_totals_lookup (a b c d : Z) :
  let tot : totals :=
    {[ "Standard" := a; "Mispar Katan" := b; "Letters" := c; "Words" := d ]} in
  tot !! "Standard" = Some a /\ tot !! "Mispar Katan" = Some b
  /\ tot !! "Letters" = Some c /\ tot !! "Words" = Some d.
Proof. repeat split; by simplify_map_eq. Qed.

Lemma english_totals_lookup (a b c d : Z) :
  let tot : totals :=
    {[ "English Ordinal" := a; "Full Reduction" := b;
       "Reverse Ordinal" := c; "Reverse Reduction" := d ]} in
  tot !! "English Ordinal" = Some a /\ tot !! "Full Reduction" = Some b
  /\ tot !! "Reverse Ordinal" = Some c /\ tot !! "Reverse Reduction" = Some d.
Proof. repeat split; by simplify_map_eq. Qed.

Lemma english_totals_dom (a b c d : Z) :
  dom ({[ "English Ordinal" := a; "Full Reduction" := b;
          "Reverse Ordinal" := c; "Reverse Reduction" := d ]} : totals)
  = ({[ "English Ordinal"; "Full Reduction";
        "Reverse Ordinal"; "Reverse Reduction" ]} : gset string).
Proof. rewrite !dom_insert_L, dom_singleton_L. set_solver. Qed.

Lemma is_az_code (k : pystr) : is_az k <-> is_Some (az_code k).
Proof.
  split.
  - intros (x & Hk). exists x. by apply az_code_Some.
  - intros [x Hx]. exists x. by apply az_code_Some.
Qed.

Lemma english_letters_nil (lower_nonascii : Z -> pystr) (text : pystr) :
  english_letters lower_nonascii text = []
  <-> forall c, c ∈ text -> ~ is_az (lower lower_nonascii c).
Proof.
  unfold english_letters. induction text as [|c text IH].
  - split; [|done]. intros _ c Hc. by apply elem_of_nil in Hc.
  - cbn [omap list_omap].
    destruct (az_code (lower lower_nonascii c)) as [x|] eqn:Hc.
    + split; [discriminate|]. intros Hall. exfalso.
      apply (Hall c); [left|]. apply is_az_code. by exists x.
    + rewrite IH. split.
      * intros Hall c' [->|Hc']%elem_of_cons; [|by apply Hall].
        rewrite is_az_code, Hc. apply is_Some_None.
      * intros Hall c' Hc'. apply Hall. by right.
Qed.

(** * The claims *)

(** C1.  For every input string with at least one recognized Hebrew letter
    after normalization, [compute_hebrew_gematria] returns a "Standard"
    total equal to the sum of the table values of the recognized letters
    and a "Mispar Katan" total equal to the sum of [((value-1) mod 9)+1]
    over the same letters; each of the five final forms has the value of
    its regular form; and on "שלום" (which normalization leaves as it is)
    the totals are 376 and 16.  Normalization maps the empty string to
    itself. *)
Theorem C1_hebrew_standard_and_katan (normalize_NFKD : pystr -> pystr)
    (h : list history_entry) (text : pystr) :
  normalize_NFKD [] = [] ->
  recognized HEBREW_VALUES (normalize_NFKD text) <> [] ->
  let letters := recognized HEBREW_VALUES (normalize_NFKD text) in
  (exists tot bd,
      compute_hebrew_gematria normalize_NFKD text (module_store h)
      = (Returns (tot, bd), module_store h)
      /\ tot !! "Standard"
         = Some (sum_over (value_of HEBREW_VALUES) letters)
      /\ tot !! "Mispar Katan"
         = Some (sum_over
                   (fun c => (value_of HEBREW_VALUES c - 1) mod 9 + 1) letters))
  /\ (HEBREW_VALUES !! [0x5DA] = Some 20 /\ HEBREW_VALUES !! [0x5DB] = Some 20
      /\ HEBREW_VALUES !! [0x5DD] = Some 40 /\ HEBREW_VALUES !! [0x5DE] = Some 40
      /\ HEBREW_VALUES !! [0x5DF] = Some 50 /\ HEBREW_VALUES !! [0x5E0] = Some 50
      /\ HEBREW_VALUES !! [0x5E3] = Some 80 /\ HEBREW_VALUES !! [0x5E4] = Some 80
      /\ HEBREW_VALUES !! [0x5E5] = Some 90 /\ HEBREW_VALUES !! [0x5E6] = Some 90)
  /\ (normalize_NFKD shalom = shalom ->
      exists tot bd,
        compute_hebrew_gematria normalize_NFKD shalom (module_store h)
        = (Returns (tot, bd), module_store h)
        /\ tot !! "Standard" = Some 376 /\ tot !! "Mispar Katan" = Some 16).
Proof.
  intros Hnil Hsome letters. split; [|split].
  - eexists _, _. split; [apply compute_hebrew_eval|].
    cbn [module_store g_HEBREW_VALUES].
    replace (hebrew_letters normalize_NFKD HEBREW_VALUES text) with letters.
    + split; apply hebrew_totals_lookup.
    + destruct text; [|reflexivity]. subst letters. by rewrite Hnil.
  - repeat split; vm_compute; reflexivity.
  - intros Hfix. eexists _, _. split; [apply compute_hebrew_eval|].
    cbn [module_store g_HEBREW_VALUES]. unfold hebrew_letters, shalom.
    fold shalom. rewrite Hfix.
    split; [etrans; [apply hebrew_totals_lookup|]
           |etrans; [apply hebrew_totals_lookup|]];
      vm_compute; reflexivity.
Qed.

Lemma C1_hebrew_standard_and_katan_witness :
  nfkd [] = [] /\ recognized HEBREW_VALUES (nfkd shalom) <> []
  /\ exists tot bd,
      compute_hebrew_gematria nfkd shalom (module_store [])
      = (Returns (tot, bd), module_store [])
      /\ tot !! "Standard" = Some 376 /\ tot !! "Mispar Katan" = Some 16.
Proof.
  split; [reflexivity|]. split; [vm_compute; discriminate|].
  refine (proj2 (proj2 (C1_hebrew_standard_and_katan nfkd [] shalom _ _)) _).
  - reflexivity.
  - vm_compute; discriminate.
  - reflexivity.
Defined.

(** C2, as stated, fails: the string "ſ" (U+017F, LATIN SMALL LETTER LONG
    S) holds a character that case-folds to the letter "s", but the code
    tests [c.lower()], which leaves that character as it is, so the call
    returns an empty totals dict and an empty breakdown instead of the
    four totals. *)
Lemma C2_counterexample :
  (exists c, c ∈ [0x17F] /\ is_az (casefold c))
  /\ lower lower_above_ascii 0x17F = [0x17F]
  /\ compute_english_gematria lower_above_ascii upper_above_ascii [0x17F]
       (module_store [])
     = (Returns (∅, []), module_store []).
Proof.
  split; [|split; vm_compute; reflexivity].
  exists 0x17F. split; [left|]. exists 0x73. split; [reflexivity|lia].
Qed.

(** C2, amended.  For every input string in which at least one character
    lowercases ([str.lower]) to a letter "a" .. "z",
    [compute_english_gematria] returns exactly the
    four totals, each the sum over the kept letters of the per-letter table
    value, where the tables hold Ordinal a=1 .. z=26, Reduction
    [((Ordinal-1) mod 9)+1], Reverse Ordinal a=26 .. z=1 and the reduction
    of the reverse ordinal; on "abc" the totals are 6, 6 and 75. *)
Theorem C2_english_four_totals (lower_nonascii upper_nonascii : Z -> pystr)
    (h : list history_entry) (text : pystr) :
  (exists c, c ∈ text /\ is_az (lower lower_nonascii c)) ->
  let letters := english_letters lower_nonascii text in
  (exists tot bd,
      compute_english_gematria lower_nonascii upper_nonascii text
        (module_store h)
      = (Returns (tot, bd), module_store h)
      /\ dom tot = {[ "English Ordinal"; "Full Reduction";
                      "Reverse Ordinal"; "Reverse Reduction" ]}
      /\ tot !! "English Ordinal"
         = Some (sum_over (value_of ENGLISH_ORDINAL) letters)
      /\ tot !! "Full Reduction"
         = Some (sum_over (value_of ENGLISH_REDUCTION) letters)
      /\ tot !! "Reverse Ordinal"
         = Some (sum_over (value_of ENGLISH_REVERSE_ORDINAL) letters)
      /\ tot !! "Reverse Reduction"
         = Some (sum_over (value_of ENGLISH_REVERSE_REDUCTION) letters))
  /\ (forall x, 97 <= x <= 122 ->
        ENGLISH_ORDINAL !! [x] = Some (x - 96)
        /\ ENGLISH_REDUCTION !! [x] = Some (((x - 96) - 1) mod 9 + 1)
        /\ ENGLISH_REVERSE_ORDINAL !! [x] = Some (123 - x)
        /\ ENGLISH_REVERSE_REDUCTION !! [x] = Some (((123 - x) - 1) mod 9 + 1))
  /\ (exists tot bd,
        compute_english_gematria lower_nonascii upper_nonascii abc
          (module_store h)
        = (Returns (tot, bd), module_store h)
        /\ tot !! "English Ordinal" = Some 6
        /\ tot !! "Full Reduction" = Some 6
        /\ tot !! "Reverse Ordinal" = Some 75).
Proof.
  intros (c & Hc & Haz) letters. split; [|split].
  - assert (letters <> []) as Hne.
    { intros Hnil. unfold letters in Hnil.
      by apply (proj1 (english_letters_nil _ _) Hnil c). }
    pose proof (compute_english_eval lower_nonascii upper_nonascii h text)
      as Hev.
    pose proof (english_letters_az lower_nonascii text) as Hletters.
    fold letters in Hev, Hletters. clearbody letters.
    assert (forall (f : Z -> Z) (table : gmap pystr Z),
              (forall x, 97 <= x <= 122 -> table !! [x] = Some (f x)) ->
              sum_over f letters = sum_over (value_of table) letters)
      as Hval.
    { intros f table Htab. apply PyFacts.sum_over_ext. intros x Hx.
      unfold value_of. by rewrite Htab by (by apply Hletters). }
    destruct letters as [|x letters']; [done|].
    eexists _, _. split; [exact Hev|].
    split; [apply english_totals_dom|].
    rewrite <- (Hval alphabet_ordinal), <- (Hval alphabet_reduction),
      <- (Hval alphabet_reverse_ordinal), <- (Hval alphabet_reverse_reduction)
      by (intros y Hy; apply (table_values y Hy)).
    apply english_totals_lookup.
  - intros x Hx. apply (table_values x Hx).
  - pose proof (compute_english_eval lower_nonascii upper_nonascii h abc)
      as Hev.
    change (english_letters lower_nonascii abc) with abc in Hev.
    cbv beta iota delta [abc] in Hev.
    eexists _, _. split; [exact Hev|].
    split; [etrans; [apply english_totals_lookup|]|
    split; [etrans; [apply english_totals_lookup|]
           |etrans; [apply english_totals_lookup|]]];
      vm_compute; reflexivity.
Qed.

Lemma C2_english_four_totals_witness :
  (exists c, c ∈ abc /\ is_az (lower lower_above_ascii c))
  /\ exists tot bd,
      compute_english_gematria lower_above_ascii upper_above_ascii abc
        (module_store [])
      = (Returns (tot, bd), module_store [])
      /\ tot !! "English Ordinal" = Some 6
      /\ tot !! "Full Reduction" = Some 6
      /\ tot !! "Reverse Ordinal" = Some 75.
Proof.
  assert (exists c, c ∈ abc /\ is_az (lower lower_above_ascii c)) as Hc.
  { exists 97. split; [left|]. exists 97. split; [reflexivity|lia]. }
  split; [exact Hc|].
  exact (proj2 (proj2 (C2_english_four_totals lower_above_ascii
                         upper_above_ascii [] abc Hc))).
Defined.

(** C3, as stated, fails: the string "ℵ" (U+2135, ALEF SYMBOL) holds no
    key of [HEBREW_VALUES], no character of the Hebrew block U+0590 ..
    U+05FF and no Hebrew presentation form U+FB1D .. U+FB4F, yet its
    compatibility decomposition is the letter alef, and the call returns
    Letters = 1, Standard = 1, Mispar Katan = 1 and a breakdown of one
    row. *)
Lemma C3_counterexample :
  (forall c, c ∈ [0x2135] ->
     HEBREW_VALUES !! [c] = None
     /\ ~ (0x590 <= c <= 0x5FF) /\ ~ (0xFB1D <= c <= 0xFB4F))
  /\ exists tot,
      compute_hebrew_gematria nfkd [0x2135] (module_store [])
      = (Returns (tot, [HebrewRow [0x5D0] 1 1]), module_store [])
      /\ tot !! "Letters" = Some 1
      /\ tot !! "Standard" = Some 1
      /\ tot !! "Mispar Katan" = Some 1.
Proof.
  split.
  - intros c ->%list_elem_of_singleton.
    split; [vm_compute; reflexivity|]. split; lia.
  - eexists. split; [vm_compute; reflexivity|].
    repeat split; vm_compute; reflexivity.
Qed.

(** C3, amended.  For every string that is empty or whose NFKD
    normalization holds no key of [HEBREW_VALUES],
    [compute_hebrew_gematria] returns Letters = 0, Standard = 0 and
    Mispar Katan = 0, with an empty breakdown. *)
Theorem C3_no_letter_after_normalization (normalize_NFKD : pystr -> pystr)
    (h : list history_entry) (text : pystr) :
  text = [] \/ recognized HEBREW_VALUES (normalize_NFKD text) = [] ->
  exists tot,
    compute_hebrew_gematria normalize_NFKD text (module_store h)
    = (Returns (tot, []), module_store h)
    /\ tot !! "Letters" = Some 0
    /\ tot !! "Standard" = Some 0
    /\ tot !! "Mispar Katan" = Some 0.
Proof.
  intros Hnone.
  pose proof (compute_hebrew_eval normalize_NFKD (module_store h) text) as Hev.
  cbn [module_store g_HEBREW_VALUES] in Hev.
  assert (hebrew_letters normalize_NFKD HEBREW_VALUES text = []) as Hl.
  { destruct Hnone as [->|Hnone]; [reflexivity|]. by destruct text. }
  cbv zeta in Hev. rewrite Hl in Hev.
  eexists. split; [exact Hev|]. repeat split; apply hebrew_totals_lookup.
Qed.

Lemma C3_no_letter_after_normalization_witness :
  (abc = [] \/ recognized HEBREW_VALUES (nfkd abc) = [])
  /\ exists tot,
      compute_hebrew_gematria nfkd abc (module_store [])
      = (Returns (tot, []), module_store [])
      /\ tot !! "Letters" = Some 0
      /\ tot !! "Standard" = Some 0
      /\ tot !! "Mispar Katan" = Some 0.
Proof.
  assert (abc = [] \/ recognized HEBREW_VALUES (nfkd abc) = []) as Hnone
    by (right; vm_compute; reflexivity).
  split; [exact Hnone|].
  exact (C3_no_letter_after_normalization nfkd [] abc Hnone).
Defined.

(** C4.  For every string, whatever the store and whether or not a Hebrew
    letter is recognized, the totals of [compute_hebrew_gematria] hold
    "Words" equal to the number of whitespace-delimited tokens of the
    original string, which is 0 for the empty string. *)
Theorem C4_hebrew_word_count (normalize_NFKD : pystr -> pystr)
    (s : store) (text : pystr) :
  (exists tot bd,
      compute_hebrew_gematria normalize_NFKD text s = (Returns (tot, bd), s)
      /\ tot !! "Words" = Some (Z.of_nat (count_tokens text)))
  /\ count_tokens [] = 0%nat.
Proof.
  split; [|reflexivity].
  eexists _, _. split; [apply compute_hebrew_eval|].
  rewrite <- PyFacts.length_split. apply hebrew_totals_lookup.
Qed.

(** C5.  For every string with no character that lowercases to a letter
    "a" .. "z", the empty string included, [compute_english_gematria]
    returns an empty totals dict and an empty breakdown, and does not
    raise. *)
Theorem C5_english_no_letter (lower_nonascii upper_nonascii : Z -> pystr)
    (h : list history_entry) (text : pystr) :
  (forall c, c ∈ text -> ~ is_az (lower lower_nonascii c)) ->
  compute_english_gematria lower_nonascii upper_nonascii text (module_store h)
  = (Returns (∅, []), module_store h).
Proof.
  intros Hnone. rewrite compute_english_eval.
  by rewrite (proj2 (english_letters_nil _ _) Hnone).
Qed.

Lemma C5_english_no_letter_witness :
  (forall c, c ∈ digits123 -> ~ is_az (lower lower_above_ascii c))
  /\ compute_english_gematria lower_above_ascii upper_above_ascii digits123
       (module_store [])
     = (Returns (∅, []), module_store []).
Proof.
  assert (forall c, c ∈ digits123 -> ~ is_az (lower lower_above_ascii c))
    as Hnone.
  { apply english_letters_nil. reflexivity. }
  split; [exact Hnone|].
  exact (C5_english_no_letter lower_above_ascii upper_above_ascii []
           digits123 Hnone).
Defined.

(** C6.  For every input string, empty, letterless or of mixed scripts,
    both functions return and do not raise: no subscript meets a missing
    key.  [compute_hebrew_gematria] subscripts the table it has just
    tested, so it returns whatever the store holds;
    [compute_english_gematria] tests [ENGLISH_ORDINAL] and subscripts all
    four English tables, which have the same keys. *)
Theorem C6_no_exception (normalize_NFKD : pystr -> pystr)
    (lower_nonascii upper_nonascii : Z -> pystr)
    (h : list history_entry) (text : pystr) :
  (exists r,
      compute_hebrew_gematria normalize_NFKD text (module_store h)
      = (Returns r, module_store h))
  /\ (exists r,
        compute_english_gematria lower_nonascii upper_nonascii text
          (module_store h)
        = (Returns r, module_store h))
  /\ (forall s, exists r,
        compute_hebrew_gematria normalize_NFKD text s = (Returns r, s))
  /\ (dom ENGLISH_REDUCTION = dom ENGLISH_ORDINAL
      /\ dom ENGLISH_REVERSE_ORDINAL = dom ENGLISH_ORDINAL
      /\ dom ENGLISH_REVERSE_REDUCTION = dom ENGLISH_ORDINAL).
Proof.
  split; [|split; [|split]].
  - eexists. apply compute_hebrew_eval.
  - eexists. apply compute_english_eval.
  - intros s. eexists. apply compute_hebrew_eval.
  - repeat split; apply set_eq; intros k; rewrite !elem_of_dom;
      rewrite ENGLISH_ORDINAL_lookup, ?ENGLISH_REDUCTION_lookup,
        ?ENGLISH_REVERSE_ORDINAL_lookup, ?ENGLISH_REVERSE_REDUCTION_lookup;
      by rewrite !fmap_is_Some.
Qed.

(** C7, as stated, fails on the empty string: it consists of letters only,
    vacuously, and the call returns an empty totals dict, which has no
    "Reverse Ordinal" entry at all. *)
Lemma C7_counterexample :
  (forall c, c ∈ ([] : pystr) -> 65 <= c <= 90 \/ 97 <= c <= 122)
  /\ exists tot bd,
      compute_english_gematria lower_above_ascii upper_above_ascii []
        (module_store [])
      = (Returns (tot, bd), module_store [])
      /\ tot !! "Reverse Ordinal" = None.
Proof.
  split; [intros c Hc; by apply elem_of_nil in Hc|].
  exists ∅, []. split; reflexivity.
Qed.

Lemma english_letters_ascii (lower_nonascii : Z -> pystr) (text : pystr) :
  (forall c, c ∈ text -> 65 <= c <= 90 \/ 97 <= c <= 122) ->
  english_letters lower_nonascii text
  = (fun c => letter_ordinal c + 96) <$> text.
Proof.
  unfold english_letters. induction text as [|c text IH]; intros Hall.
  - reflexivity.
  - rewrite fmap_cons. cbn [omap list_omap].
    rewrite IH by (intros c' Hc'; apply Hall; by right).
    assert (65 <= c <= 90 \/ 97 <= c <= 122) as Hc by (apply Hall; left).
    assert (az_code (lower lower_nonascii c) = Some (letter_ordinal c + 96))
      as ->; [|reflexivity].
    apply az_code_Some. unfold lower, letter_ordinal.
    destruct Hc as [Hc|Hc].
    + replace ((65 <=? c) && (c <=? 90)) with true
        by (symmetry; apply andb_true_iff; lia).
      replace (c <=? 90) with true by (symmetry; apply Z.leb_le; lia).
      split; [f_equal; lia|lia].
    + replace ((65 <=? c) && (c <=? 90)) with false
        by (symmetry; apply andb_false_iff; right; apply Z.leb_gt; lia).
      replace (c <? 128) with true by (symmetry; apply Z.ltb_lt; lia).
      replace (c <=? 90) with false by (symmetry; apply Z.leb_gt; lia).
      split; [f_equal; lia|lia].
Qed.

(** C7, amended.  For every letter "a" .. "z" the reverse-ordinal table
    holds 27 minus what the ordinal table holds; consequently, for every
    non-empty string of ASCII letters only, of either case, the "Reverse
    Ordinal" total is the sum over its characters of 27 minus the
    character's position in the alphabet. *)
Theorem C7_reverse_ordinal (lower_nonascii upper_nonascii : Z -> pystr)
    (h : list history_entry) (text : pystr) :
  text <> [] ->
  (forall c, c ∈ text -> 65 <= c <= 90 \/ 97 <= c <= 122) ->
  (forall x, 97 <= x <= 122 ->
     exists o, ENGLISH_ORDINAL !! [x] = Some o
               /\ ENGLISH_REVERSE_ORDINAL !! [x] = Some (27 - o))
  /\ exists tot bd,
      compute_english_gematria lower_nonascii upper_nonascii text
        (module_store h)
      = (Returns (tot, bd), module_store h)
      /\ tot !! "Reverse Ordinal"
         = Some (sum_over (fun c => 27 - letter_ordinal c) text).
Proof.
  intros Hne Hall. split.
  - intros x Hx. destruct (table_values x Hx) as (Ho & _ & Hro & _).
    exists (alphabet_ordinal x). split; [done|]. rewrite Hro. f_equal.
    unfold alphabet_reverse_ordinal, alphabet_ordinal. lia.
  - pose proof (compute_english_eval lower_nonascii upper_nonascii h text)
      as Hev.
    rewrite (english_letters_ascii _ _ Hall) in Hev.
    destruct text as [|c text]; [done|].
    remember ((fun c => letter_ordinal c + 96) <$> c :: text) as ls eqn:Hls.
    destruct ls as [|l ls]; [discriminate|]. cbv beta iota in Hev.
    rewrite Hls in Hev.
    eexists _, _. split; [exact Hev|].
    etrans; [apply english_totals_lookup|]. f_equal.
    rewrite PyFacts.sum_over_fmap. apply PyFacts.sum_over_ext. intros x _.
    unfold alphabet_reverse_ordinal. lia.
Qed.

Lemma C7_reverse_ordinal_witness :
  abc <> []
  /\ (forall c, c ∈ abc -> 65 <= c <= 90 \/ 97 <= c <= 122)
  /\ exists tot bd,
      compute_english_gematria lower_above_ascii upper_above_ascii abc
        (module_store [])
      = (Returns (tot, bd), module_store [])
      /\ tot !! "Reverse Ordinal"
         = Some (sum_over (fun c => 27 - letter_ordinal c) abc).
Proof.
  assert (abc <> []) as Hne by discriminate.
  assert (forall c, c ∈ abc -> 65 <= c <= 90 \/ 97 <= c <= 122) as Hall.
  { intros c Hc. unfold abc in Hc. rewrite !elem_of_cons in Hc.
    destruct Hc as [->|[->|[->|Hc]]]; [lia|lia|lia|].
    by apply elem_of_nil in Hc. }
  split; [exact Hne|]. split; [exact Hall|].
  exact (proj2 (C7_reverse_ordinal lower_above_ascii upper_above_ascii []
                  abc Hne Hall)).
Defined.

(** ** What the outcome depends on *)

Lemma bind_outcome {A B} (m : M A) (k : A -> M B) (s s' : store) :
  readonly m ->
  (m s).1 = (m s').1 ->
  (forall a, (k a s).1 = (k a s').1) ->
  (bind m k s).1 = (bind m k s').1.
Proof.
  intros Hm Hout Hk. unfold bind.
  pose proof (Hm s) as Hs. pose proof (Hm s') as Hs'.
  destruct (m s) as [r t], (m s') as [r' t']. cbn in *. subst.
  destruct r' as [a|e]; [apply Hk|reflexivity].
Qed.

Lemma getitem_outcome (d : gmap pystr Z) (k : pystr) (s s' : store) :
  (getitem d k s).1 = (getitem d k s').1.
Proof. unfold getitem. by destruct (d !! k). Qed.

Lemma subscript_outcome (table : store -> gmap pystr Z) (k : pystr)
    (s s' : store) :
  table s = table s' ->
  (subscript table k s).1 = (subscript table k s').1.
Proof.
  intros Ht. unfold subscript.
  apply bind_outcome; [apply readonly_read| |intros d; apply getitem_outcome].
  cbn. by rewrite Ht.
Qed.

Lemma for_each_outcome {A B} (f : A -> M B) (l : list A) (s s' : store) :
  (forall x, readonly (f x)) ->
  (forall x, (f x s).1 = (f x s').1) ->
  (for_each f l s).1 = (for_each f l s').1.
Proof.
  intros Hro Hf. induction l as [|x l IH]; [reflexivity|].
  cbn [for_each]. apply bind_outcome; [apply Hro|apply Hf|]. intros y.
  apply bind_outcome; [by apply readonly_for_each|exact IH|]. by intros ys.
Qed.

Lemma sum_table_outcome (table : store -> gmap pystr Z) (keys : list pystr)
    (s s' : store) :
  table s = table s' ->
  (sum_table table keys s).1 = (sum_table table keys s').1.
Proof.
  intros Ht. unfold sum_table.
  apply bind_outcome; [|apply for_each_outcome|by intros vs].
  - apply readonly_for_each. intros k. apply readonly_subscript.
  - intros k. apply readonly_subscript.
  - intros k. by apply subscript_outcome.
Qed.

Section EnglishOutcome.

Variable lower_nonascii : Z -> pystr.
Variable upper_nonascii : Z -> pystr.
Variables s s' : store.
Hypothesis same_ordinal : g_ENGLISH_ORDINAL s = g_ENGLISH_ORDINAL s'.
Hypothesis same_reduction : g_ENGLISH_REDUCTION s = g_ENGLISH_REDUCTION s'.
Hypothesis same_reverse_ordinal :
  g_ENGLISH_REVERSE_ORDINAL s = g_ENGLISH_REVERSE_ORDINAL s'.
Hypothesis same_reverse_reduction :
  g_ENGLISH_REVERSE_REDUCTION s = g_ENGLISH_REVERSE_REDUCTION s'.

Lemma english_clean_text_outcome (text : pystr) :
  (english_clean_text lower_nonascii text s).1
  = (english_clean_text lower_nonascii text s').1.
Proof.
  induction text as [|c text IH]; [reflexivity|].
  cbn [english_clean_text].
  apply bind_outcome; [apply readonly_read|cbn; by rewrite same_ordinal|].
  intros d. destruct (Py.contains d (lower lower_nonascii c)); [|exact IH].
  apply bind_outcome; [apply readonly_english_clean_text|exact IH|].
  by intros tl.
Qed.

Lemma english_entry_outcome (c : pystr) :
  (english_entry upper_nonascii c s).1 = (english_entry upper_nonascii c s').1.
Proof.
  unfold english_entry.
  apply bind_outcome;
    [apply readonly_subscript|by apply subscript_outcome|intros o].
  apply bind_outcome;
    [apply readonly_subscript|by apply subscript_outcome|intros r].
  apply bind_outcome;
    [apply readonly_subscript|by apply subscript_outcome|intros ro].
  apply bind_outcome;
    [apply readonly_subscript|by apply subscript_outcome|by intros rr].
Qed.

(** The outcome of [compute_english_gematria] is the same in two stores
    that hold the same four English tables. *)
Lemma compute_english_outcome (text : pystr) :
  (compute_english_gematria lower_nonascii upper_nonascii text s).1
  = (compute_english_gematria lower_nonascii upper_nonascii text s').1.
Proof.
  destruct text as [|c0 text]; [reflexivity|].
  unfold compute_english_gematria.
  apply bind_outcome;
    [apply readonly_english_clean_text|apply english_clean_text_outcome|].
  intros [|k keys]; [reflexivity|].
  apply bind_outcome;
    [apply readonly_sum_table|by apply sum_table_outcome|intros ordinal].
  apply bind_outcome;
    [apply readonly_sum_table|by apply sum_table_outcome|intros reduction].
  apply bind_outcome;
    [apply readonly_sum_table|by apply sum_table_outcome|intros rev_ordinal].
  apply bind_outcome;
    [apply readonly_sum_table|by apply sum_table_outcome|intros rev_reduction].
  apply bind_outcome; [| |by intros breakdown].
  - apply readonly_for_each, readonly_english_entry.
  - apply for_each_outcome; [apply readonly_english_entry|].
    apply english_entry_outcome.
Qed.

End EnglishOutcome.

(** C9.  Both functions are deterministic and free of side effects.  From
    any store, a call leaves the store (tables and history) as it found
    it, and a second call with the same input right after the first comes
    out the same, totals and breakdown alike.  No hidden state is read:
    the outcome of [compute_hebrew_gematria] is the same in every store
    that holds the same [HEBREW_VALUES], whatever the history and the
    other tables, and the outcome of [compute_english_gematria] is the
    same in every store that holds the same four English tables, whatever
    the history and [HEBREW_VALUES]. *)
Theorem C9_pure (normalize_NFKD : pystr -> pystr)
    (lower_nonascii upper_nonascii : Z -> pystr) (s : store) (text : pystr) :
  (exists r,
      compute_hebrew_gematria normalize_NFKD text s = (r, s)
      /\ compute_hebrew_gematria normalize_NFKD text
           (compute_hebrew_gematria normalize_NFKD text s).2 = (r, s)
      /\ forall ordinal reduction reverse_ordinal reverse_reduction history,
           let s' := Store (g_HEBREW_VALUES s) ordinal reduction
                       reverse_ordinal reverse_reduction history in
           compute_hebrew_gematria normalize_NFKD text s' = (r, s'))
  /\ (exists r,
        compute_english_gematria lower_nonascii upper_nonascii text s = (r, s)
        /\ compute_english_gematria lower_nonascii upper_nonascii text
             (compute_english_gematria lower_nonascii upper_nonascii text s).2
           = (r, s)
        /\ forall hebrew_values history,
             let s' := Store hebrew_values (g_ENGLISH_ORDINAL s)
                         (g_ENGLISH_REDUCTION s) (g_ENGLISH_REVERSE_ORDINAL s)
                         (g_ENGLISH_REVERSE_REDUCTION s) history in
             compute_english_gematria lower_nonascii upper_nonascii text s'
             = (r, s')).
Proof.
  split.
  - destruct (readonly_twice (compute_hebrew_gematria normalize_NFKD text) s
                (readonly_compute_hebrew normalize_NFKD text))
      as (r & Hrun & Hagain).
    exists r. split; [exact Hrun|]. split; [exact Hagain|].
    intros ordinal reduction reverse_ordinal reverse_reduction history s'.
    rewrite compute_hebrew_eval in Hrun. injection Hrun as <-.
    by rewrite compute_hebrew_eval.
  - destruct (readonly_twice
                (compute_english_gematria lower_nonascii upper_nonascii text)
                s (readonly_compute_english lower_nonascii upper_nonascii text))
      as (r & Hrun & Hagain).
    exists r. split; [exact Hrun|]. split; [exact Hagain|].
    intros hebrew_values history s'.
    pose proof (compute_english_outcome lower_nonascii upper_nonascii s s'
                  eq_refl eq_refl eq_refl eq_refl text) as Hout.
    pose proof (readonly_compute_english lower_nonascii upper_nonascii text s')
      as Hro.
    rewrite Hrun in Hout. cbn [fst] in Hout.
    destruct (compute_english_gematria lower_nonascii upper_nonascii text s')
      as [r' t']. cbn in Hout, Hro. by subst.
Qed.

(** C10.  For every input string the totals agree with the breakdown.  For
    [compute_hebrew_gematria], "Letters" is the length of the breakdown,
    "Standard" the sum of its "Value" fields and "Mispar Katan" the sum of
    its "Small" fields.  For [compute_english_gematria], either the totals
    and the breakdown are both empty, or each of the four totals is present
    and is the sum of its column of the breakdown. *)
Theorem C10_totals_match_breakdown (normalize_NFKD : pystr -> pystr)
    (lower_nonascii upper_nonascii : Z -> pystr)
    (h : list history_entry) (text : pystr) :
  (exists tot bd,
      compute_hebrew_gematria normalize_NFKD text (module_store h)
      = (Returns (tot, bd), module_store h)
      /\ tot !! "Letters" = Some (Py.len bd)
      /\ tot !! "Standard" = Some (sum_over Value bd)
      /\ tot !! "Mispar Katan" = Some (sum_over Small bd))
  /\ (exists tot bd,
        compute_english_gematria lower_nonascii upper_nonascii text
          (module_store h)
        = (Returns (tot, bd), module_store h)
        /\ ((tot = ∅ /\ bd = [])
            \/ (tot !! "English Ordinal" = Some (sum_over Ordinal bd)
                /\ tot !! "Full Reduction" = Some (sum_over Reduction bd)
                /\ tot !! "Reverse Ordinal" = Some (sum_over RevOrdinal bd)
                /\ tot !! "Reverse Reduction"
                   = Some (sum_over RevReduction bd)))).
Proof.
  split.
  - eexists _, _. split; [apply compute_hebrew_eval|].
    rewrite !PyFacts.sum_over_fmap. unfold Py.len. rewrite length_fmap.
    cbn [Value Small]. repeat split; apply hebrew_totals_lookup.
  - eexists _, _. split; [apply compute_english_eval|].
    destruct (english_letters lower_nonascii text) as [|x letters].
    + left. split; reflexivity.
    + right. rewrite !PyFacts.sum_over_fmap.
      cbn [english_row_of Ordinal Reduction RevOrdinal RevReduction].
      apply english_totals_lookup.
Qed.

(** ** The history *)

Section HistoryFacts.

Variable normalize_NFKD : pystr -> pystr.
Variable lower_nonascii : Z -> pystr.
Variable upper_nonascii : Z -> pystr.

Lemma update_history_with_eval (is_hebrew : bool) (input_text : pystr)
    (results : totals) (s : store) :
  update_history_with is_hebrew input_text results s
  = (Returns tt,
     match Py.strip input_text with
     | [] => s
     | _ :: _ =>
         set_history
           (take 5 (history_entry_of is_hebrew input_text results
                      :: g_history s)) s
     end).
Proof.
  unfold update_history_with. by destruct (Py.strip input_text).
Qed.

Lemma calculate_eval (h : list history_entry) (call : bool * pystr) :
  calculate normalize_NFKD lower_nonascii upper_nonascii call.1 call.2
    (module_store h)
  = (Returns tt,
     module_store
       match Py.strip call.2 with
       | [] => h
       | _ :: _ =>
           take 5 (calculated_entry normalize_NFKD lower_nonascii
                     upper_nonascii call :: h)
       end).
Proof.
  destruct call as [[|] t]; cbn [fst snd]; unfold calculate,
    calculated_entry, results_of; cbn [fst snd].
  - rewrite (compute_hebrew_eval normalize_NFKD (module_store [])).
    erewrite bind_returns by apply compute_hebrew_eval.
    cbv beta iota. rewrite update_history_with_eval.
    by destruct (Py.strip t).
  - rewrite (compute_english_eval lower_nonascii upper_nonascii []).
    erewrite bind_returns by apply compute_english_eval.
    cbv beta iota. rewrite update_history_with_eval.
    by destruct (Py.strip t).
Qed.

Lemma take_app_take {A} (n : nat) (l m : list A) :
  take n (l ++ take n m) = take n (l ++ m).
Proof.
  rewrite !take_app, take_take. do 2 f_equal. lia.
Qed.

Lemma calculate_all_nonblank (calls : list (bool * pystr))
    (h : list history_entry) :
  (length h <= 5)%nat ->
  Forall (fun call => Py.strip call.2 <> []) calls ->
  calculate_all normalize_NFKD lower_nonascii upper_nonascii calls
    (module_store h)
  = (Returns tt,
     module_store
       (take 5 (reverse (calculated_entry normalize_NFKD lower_nonascii
                           upper_nonascii <$> calls) ++ h))).
Proof.
  revert h. induction calls as [|call calls IH]; intros h Hh Hcalls.
  - cbn. by rewrite take_ge.
  - apply Forall_cons in Hcalls as [Hcall Hcalls].
    cbn [calculate_all]. erewrite bind_returns by apply calculate_eval.
    destruct (Py.strip call.2) as [|c0 stripped] eqn:Hs; [done|].
    rewrite IH; [|rewrite length_take; lia|done].
    rewrite take_app_take, fmap_cons, reverse_cons, <- app_assoc.
    reflexivity.
Qed.

Lemma calculate_all_length (calls : list (bool * pystr))
    (h : list history_entry) :
  (length h <= 5)%nat ->
  exists h',
    calculate_all normalize_NFKD lower_nonascii upper_nonascii calls
      (module_store h)
    = (Returns tt, module_store h')
    /\ (length h' <= 5)%nat.
Proof.
  revert h. induction calls as [|call calls IH]; intros h Hh.
  - by exists h.
  - cbn [calculate_all]. erewrite bind_returns by apply calculate_eval.
    apply IH. destruct (Py.strip call.2); [done|].
    rewrite length_take. lia.
Qed.

End HistoryFacts.

(** C8.  The history never holds more than 5 entries and runs from the
    most recent to the oldest: recording a computation whose input is not
    blank puts the new entry at index 0 and keeps the first 5 elements; in
    a session that starts with an empty history the length stays at most
    5 whatever is computed; and after 7 computations on inputs that are
    not blank, whatever the history held before, it holds exactly 5
    entries, those of the last 5 computations, the most recent at
    index 0. *)
Theorem C8_history_cap (normalize_NFKD : pystr -> pystr)
    (lower_nonascii upper_nonascii : Z -> pystr)
    (calls : list (bool * pystr)) (h : list history_entry) :
  length calls = 7%nat ->
  Forall (fun call => Py.strip call.2 <> []) calls ->
  let entries :=
    calculated_entry normalize_NFKD lower_nonascii upper_nonascii <$> calls in
  (forall is_hebrew input_text results s,
      Py.strip input_text <> [] ->
      update_history_with is_hebrew input_text results s
      = (Returns tt,
         set_history
           (take 5 (history_entry_of is_hebrew input_text results
                      :: g_history s)) s))
  /\ (forall presses, exists h',
        calculate_all normalize_NFKD lower_nonascii upper_nonascii presses
          (module_store [])
        = (Returns tt, module_store h')
        /\ (length h' <= 5)%nat)
  /\ exists h',
      calculate_all normalize_NFKD lower_nonascii upper_nonascii calls
        (module_store h)
      = (Returns tt, module_store h')
      /\ length h' = 5%nat
      /\ forall i, (i < 5)%nat -> h' !! i = entries !! (6 - i)%nat.
Proof.
  intros Hlen Hcalls entries. split; [|split].
  - intros is_hebrew input_text results s Hs.
    rewrite update_history_with_eval. by destruct (Py.strip input_text).
  - intros presses. apply calculate_all_length. cbn. lia.
  - destruct calls as [|call calls]; [discriminate|].
    apply Forall_cons in Hcalls as [Hcall Hcalls].
    cbn [calculate_all]. erewrite bind_returns by apply calculate_eval.
    destruct (Py.strip call.2) as [|c0 stripped]; [done|].
    rewrite calculate_all_nonblank; [|rewrite length_take; lia|done].
    set (rest := calculated_entry normalize_NFKD lower_nonascii
                   upper_nonascii <$> calls).
    assert (length rest = 6%nat) as Hrest.
    { unfold rest. rewrite length_fmap. cbn in Hlen. lia. }
    eexists. split; [reflexivity|].
    rewrite take_app_take, take_app_le by (rewrite length_reverse; lia).
    split; [rewrite length_take, length_reverse; lia|].
    intros i Hi. rewrite lookup_take_lt by done.
    rewrite reverse_lookup by lia. subst entries. rewrite fmap_cons.
    fold rest. rewrite Hrest.
    replace (6 - i)%nat with (S (5 - i)) by lia. reflexivity.
Qed.

Lemma C8_history_cap_witness :
  length seven_calls = 7%nat
  /\ Forall (fun call => Py.strip call.2 <> []) seven_calls
  /\ exists h',
      calculate_all nfkd lower_above_ascii upper_above_ascii seven_calls
        (module_store [])
      = (Returns tt, module_store h')
      /\ length h' = 5%nat
      /\ h' !! 0%nat = Some (HistoryEntry [0x5D1] "Hebrew" 2)
      /\ h' !! 4%nat = Some (HistoryEntry shalom "Hebrew" 376).
Proof.
  assert (Forall (fun call : bool * pystr => Py.strip call.2 <> [])
            seven_calls) as Hcalls
    by (repeat constructor; vm_compute; discriminate).
  split; [reflexivity|]. split; [exact Hcalls|].
  destruct (C8_history_cap nfkd lower_above_ascii upper_above_ascii
              seven_calls [] eq_refl Hcalls) as (_ & _ & h' & Hrun & Hlen & Hidx).
  exists h'. split; [exact Hrun|]. split; [exact Hlen|]. split.
  - rewrite (Hidx 0%nat) by lia. vm_compute. reflexivity.
  - rewrite (Hidx 4%nat) by lia. vm_compute. reflexivity.
Defined.

(** * Further properties of the computations *)

Section Sums.

Context {A : Type}.

Lemma sum_over_app (f : A -> Z) (l m : list A) :
  sum_over f (l ++ m) = sum_over f l + sum_over f m.
Proof.
  induction l as [|x l IH]; [reflexivity|].
  cbn [app sum_over]. rewrite IH. lia.
Qed.

Lemma sum_over_bounds (f : A -> Z) (a b : Z) (l : list A) :
  (forall x, x ∈ l -> a <= f x <= b) ->
  a * Py.len l <= sum_over f l <= b * Py.len l.
Proof.
  unfold Py.len. induction l as [|x l IH]; intros Hf.
  - cbn. lia.
  - assert (a <= f x <= b) by (apply Hf; left).
    assert (a * Z.of_nat (length l) <= sum_over f l
            <= b * Z.of_nat (length l))
      by (apply IH; intros y Hy; apply Hf; by right).
    cbn [sum_over length]. lia.
Qed.

Lemma small_range (v : Z) : 1 <= small v <= 9.
Proof. unfold small. pose proof (Z.mod_pos_bound (v - 1) 9). lia. Qed.

Lemma small_mod_9 (v : Z) : small v mod 9 = v mod 9.
Proof.
  unfold small. rewrite Z.add_mod_idemp_l by lia. f_equal. lia.
Qed.

(** Reducing each summand does not change the sum modulo 9. *)
Lemma sum_over_small_mod_9 (f : A -> Z) (l : list A) :
  sum_over (fun x => small (f x)) l mod 9 = sum_over f l mod 9.
Proof.
  induction l as [|x l IH]; [reflexivity|].
  cbn [sum_over]. rewrite Z.add_mod, IH, small_mod_9, <- Z.add_mod by lia.
  reflexivity.
Qed.

End Sums.

(** ** The Hebrew table *)

(** Every key of the table is one character of U+05D0 .. U+05EA and
    every value lies between 1 and 400. *)
Lemma HEBREW_VALUES_entries (k : pystr) (v : Z) :
  HEBREW_VALUES !! k = Some v ->
  exists c, k = [c] /\ 0x5D0 <= c <= 0x5EA /\ 1 <= v <= 400.
Proof.
  pose (check := fun (k : pystr) (v : Z) =>
          match k with
          | [c] => (0x5D0 <=? c) && (c <=? 0x5EA) && (1 <=? v) && (v <=? 400)
          | _ => false
          end).
  assert (map_Forall (fun k v => Is_true (check k v)) HEBREW_VALUES) as Hall
    by (apply (bool_decide_unpack _); vm_compute; exact I).
  intros Hk. specialize (Hall k v Hk). unfold check in Hall.
  destruct k as [|c [|]]; try done. exists c.
  apply Is_true_true in Hall. rewrite !andb_true_iff in Hall.
  split; [reflexivity|]. lia.
Qed.

Lemma HEBREW_VALUES_alphabet (c : Z) :
  is_Some (HEBREW_VALUES !! [c]) <-> 0x5D0 <= c <= 0x5EA.
Proof.
  split.
  - intros [v Hv]. apply HEBREW_VALUES_entries in Hv as (c' & [= <-] & Hc & _).
    exact Hc.
  - intros Hc.
    assert (Forall (fun c => is_Some (HEBREW_VALUES !! [c])) (seqZ 0x5D0 27))
      as Hall by (apply (bool_decide_unpack _); vm_compute; exact I).
    rewrite Forall_forall in Hall. apply Hall, elem_of_seqZ. lia.
Qed.

Lemma recognized_alphabet (s : pystr) :
  recognized HEBREW_VALUES s = filter (fun c => 0x5D0 <= c <= 0x5EA) s.
Proof.
  unfold recognized. apply list_filter_iff. intros c.
  apply HEBREW_VALUES_alphabet.
Qed.

Lemma value_of_recognized (s : pystr) (c : Z) :
  c ∈ recognized HEBREW_VALUES s -> 1 <= value_of HEBREW_VALUES c <= 400.
Proof.
  unfold recognized. rewrite list_elem_of_filter. intros [[v Hv] _].
  unfold value_of. rewrite Hv. cbn.
  by apply HEBREW_VALUES_entries in Hv as (_ & _ & _ & Hv).
Qed.

(** ** More on [compute_hebrew_gematria] *)

(** X1.  Whatever the input and the store, every row of the Hebrew
    breakdown has a "Small" field between 1 and 9, equal to
    [((Value-1) mod 9)+1], so the "Mispar Katan" total lies between the
    "Letters" total and nine times it. *)
Theorem X1_hebrew_small_range (normalize_NFKD : pystr -> pystr)
    (s : store) (text : pystr) :
  exists tot bd L K,
    compute_hebrew_gematria normalize_NFKD text s = (Returns (tot, bd), s)
    /\ tot !! "Letters" = Some L
    /\ tot !! "Mispar Katan" = Some K
    /\ Forall (fun r => Small r = (Value r - 1) mod 9 + 1
                        /\ 1 <= Small r <= 9) bd
    /\ L <= K <= 9 * L.
Proof.
  eexists _, _, _, _. split; [apply compute_hebrew_eval|].
  split; [apply hebrew_totals_lookup|]. split; [apply hebrew_totals_lookup|].
  split.
  - apply Forall_fmap, Forall_forall. intros c _. cbn.
    split; [reflexivity|]. apply small_range.
  - pose proof (sum_over_bounds
                  (fun c => small (value_of (g_HEBREW_VALUES s) c)) 1 9
                  (hebrew_letters normalize_NFKD (g_HEBREW_VALUES s) text)
                  (fun c _ => small_range _)) as Hb.
    unfold small in Hb at 1 2. lia.
Qed.

(** X2.  Whatever the input and the store, the "Mispar Katan" total and
    the "Standard" total leave the same remainder modulo 9. *)
Theorem X2_hebrew_katan_mod_9 (normalize_NFKD : pystr -> pystr)
    (s : store) (text : pystr) :
  exists tot bd S K,
    compute_hebrew_gematria normalize_NFKD text s = (Returns (tot, bd), s)
    /\ tot !! "Standard" = Some S
    /\ tot !! "Mispar Katan" = Some K
    /\ K mod 9 = S mod 9.
Proof.
  eexists _, _, _, _. split; [apply compute_hebrew_eval|].
  split; [apply hebrew_totals_lookup|]. split; [apply hebrew_totals_lookup|].
  apply (sum_over_small_mod_9 (value_of (g_HEBREW_VALUES s))).
Qed.

(** X3.  With the module's table, the letters counted are exactly the
    characters U+05D0 .. U+05EA of the normalized text (vowel points,
    punctuation and other scripts are not; none for the empty text): the
    "Letter" fields of the breakdown are those characters, in order, and
    "Letters" is their number.  Every row holds a value between 1 and
    400, the "Standard" total lies between "Letters" and 400 times
    "Letters", and it is 0 exactly when no letter is counted. *)
Theorem X3_hebrew_alphabet (normalize_NFKD : pystr -> pystr)
    (h : list history_entry) (text : pystr) :
  let counted :=
    match text with
    | [] => []
    | _ :: _ => filter (fun c => 0x5D0 <= c <= 0x5EA) (normalize_NFKD text)
    end in
  exists tot bd L S,
    compute_hebrew_gematria normalize_NFKD text (module_store h)
    = (Returns (tot, bd), module_store h)
    /\ Letter <$> bd = (fun c => [c]) <$> counted
    /\ tot !! "Letters" = Some L
    /\ L = Py.len counted
    /\ tot !! "Standard" = Some S
    /\ Forall (fun r => 1 <= Value r <= 400) bd
    /\ L <= S <= 400 * L
    /\ (S = 0 <-> L = 0).
Proof.
  intros counted.
  pose proof (compute_hebrew_eval normalize_NFKD (module_store h) text) as Hev.
  cbn [module_store g_HEBREW_VALUES] in Hev. cbv zeta in Hev.
  assert (hebrew_letters normalize_NFKD HEBREW_VALUES text = counted) as Hl.
  { unfold hebrew_letters, counted. destruct text; [reflexivity|].
    apply recognized_alphabet. }
  assert (forall c, c ∈ counted -> 1 <= value_of HEBREW_VALUES c <= 400)
    as Hletters.
  { rewrite <- Hl. unfold hebrew_letters. destruct text as [|c0 text'].
    - intros c Hc. by apply elem_of_nil in Hc.
    - intros c Hc. by eapply value_of_recognized. }
  rewrite Hl in Hev. clearbody counted.
  pose proof (sum_over_bounds (value_of HEBREW_VALUES) 1 400 counted Hletters)
    as Hb.
  eexists _, _, _, _. split; [exact Hev|].
  split; [by rewrite <- list_fmap_compose|].
  split; [apply hebrew_totals_lookup|]. split; [reflexivity|].
  split; [apply hebrew_totals_lookup|].
  split; [|lia].
  apply Forall_fmap, Forall_forall. intros c Hc. cbn. by apply Hletters.
Qed.

(** X4.  Where normalization distributes over a concatenation, the
    Hebrew totals "Standard", "Mispar Katan" and "Letters" of the
    concatenation are the sums of those of the two parts, and its
    breakdown is the two breakdowns one after the other. *)
Theorem X4_hebrew_additive (normalize_NFKD : pystr -> pystr)
    (s : store) (text1 text2 : pystr) :
  normalize_NFKD (text1 ++ text2)
  = normalize_NFKD text1 ++ normalize_NFKD text2 ->
  exists tot1 bd1 tot2 bd2 tot bd,
    compute_hebrew_gematria normalize_NFKD text1 s = (Returns (tot1, bd1), s)
    /\ compute_hebrew_gematria normalize_NFKD text2 s
       = (Returns (tot2, bd2), s)
    /\ compute_hebrew_gematria normalize_NFKD (text1 ++ text2) s
       = (Returns (tot, bd), s)
    /\ Py.get tot "Standard" 0
       = Py.get tot1 "Standard" 0 + Py.get tot2 "Standard" 0
    /\ Py.get tot "Mispar Katan" 0
       = Py.get tot1 "Mispar Katan" 0 + Py.get tot2 "Mispar Katan" 0
    /\ Py.get tot "Letters" 0
       = Py.get tot1 "Letters" 0 + Py.get tot2 "Letters" 0
    /\ bd = bd1 ++ bd2.
Proof.
  intros Hdist.
  assert (hebrew_letters normalize_NFKD (g_HEBREW_VALUES s) (text1 ++ text2)
          = hebrew_letters normalize_NFKD (g_HEBREW_VALUES s) text1
            ++ hebrew_letters normalize_NFKD (g_HEBREW_VALUES s) text2)
    as Happ.
  { destruct text1 as [|c1 text1]; [reflexivity|].
    destruct text2 as [|c2 text2]; [by rewrite !app_nil_r|].
    unfold hebrew_letters. cbn [app]. unfold recognized.
    rewrite <- filter_app. f_equal. exact Hdist. }
  eexists _, _, _, _, _, _.
  split; [apply compute_hebrew_eval|]. split; [apply compute_hebrew_eval|].
  split; [apply compute_hebrew_eval|].
  unfold Py.get. cbv zeta.
  rewrite !(proj1 (hebrew_totals_lookup _ _ _ _)),
    !(proj1 (proj2 (hebrew_totals_lookup _ _ _ _))),
    !(proj1 (proj2 (proj2 (hebrew_totals_lookup _ _ _ _)))).
  cbn [default from_option id]. rewrite Happ, !sum_over_app, fmap_app.
  unfold Py.len. rewrite length_app. repeat split; try lia; reflexivity.
Qed.

Lemma X4_hebrew_additive_witness :
  nfkd (shalom ++ abc) = nfkd shalom ++ nfkd abc
  /\ exists tot1 bd1 tot2 bd2 tot bd,
      compute_hebrew_gematria nfkd shalom (module_store [])
      = (Returns (tot1, bd1), module_store [])
      /\ compute_hebrew_gematria nfkd abc (module_store [])
         = (Returns (tot2, bd2), module_store [])
      /\ compute_hebrew_gematria nfkd (shalom ++ abc) (module_store [])
         = (Returns (tot, bd), module_store [])
      /\ Py.get tot "Standard" 0
         = Py.get tot1 "Standard" 0 + Py.get tot2 "Standard" 0
      /\ Py.get tot "Mispar Katan" 0
         = Py.get tot1 "Mispar Katan" 0 + Py.get tot2 "Mispar Katan" 0
      /\ Py.get tot "Letters" 0
         = Py.get tot1 "Letters" 0 + Py.get tot2 "Letters" 0
      /\ bd = bd1 ++ bd2.
Proof.
  split; [reflexivity|].
  exact (X4_hebrew_additive nfkd (module_store []) shalom abc eq_refl).
Defined.

(** ** More on [compute_english_gematria] *)

Section EnglishMore.

Variable lower_nonascii : Z -> pystr.
Variable upper_nonascii : Z -> pystr.

Lemma sum_over_add {A} (f g : A -> Z) (l : list A) :
  sum_over f l + sum_over g l = sum_over (fun x => f x + g x) l.
Proof. induction l as [|x l IH]; cbn [sum_over]; lia. Qed.

(** The totals read with [get] and default 0, on every input. *)
Lemma compute_english_get (h : list history_entry) (text : pystr) :
  let letters := english_letters lower_nonascii text in
  exists tot,
    compute_english_gematria lower_nonascii upper_nonascii text (module_store h)
    = (Returns (tot, english_row_of <$> letters), module_store h)
    /\ Py.get tot "English Ordinal" 0 = sum_over alphabet_ordinal letters
    /\ Py.get tot "Full Reduction" 0 = sum_over alphabet_reduction letters
    /\ Py.get tot "Reverse Ordinal" 0
       = sum_over alphabet_reverse_ordinal letters
    /\ Py.get tot "Reverse Reduction" 0
       = sum_over alphabet_reverse_reduction letters
    /\ (tot = ∅ <-> letters = []).
Proof.
  intros letters. eexists. split; [apply compute_english_eval|].
  fold letters. destruct letters as [|x letters'].
  - repeat split; reflexivity.
  - unfold Py.get.
    rewrite (proj1 (english_totals_lookup _ _ _ _)),
      (proj1 (proj2 (english_totals_lookup _ _ _ _))),
      (proj1 (proj2 (proj2 (english_totals_lookup _ _ _ _)))),
      (proj2 (proj2 (proj2 (english_totals_lookup _ _ _ _)))).
    repeat split; try reflexivity; [|discriminate].
    intros Hempty. apply (f_equal (fun m => m !! "English Ordinal")) in Hempty.
    rewrite (proj1 (english_totals_lookup _ _ _ _)), lookup_empty in Hempty.
    discriminate.
Qed.

Lemma english_clean_text_fmap (f : Z -> Z) (text : pystr) (s : store) :
  (forall c, lower lower_nonascii (f c) = lower lower_nonascii c) ->
  english_clean_text lower_nonascii (f <$> text) s
  = english_clean_text lower_nonascii text s.
Proof.
  intros Hf. induction text as [|c text IH]; [reflexivity|].
  rewrite fmap_cons. cbn [english_clean_text]. rewrite Hf.
  unfold bind at 1 3, read.
  destruct (Py.contains (g_ENGLISH_ORDINAL s) (lower lower_nonascii c));
    [|exact IH].
  unfold bind. by rewrite IH.
Qed.

Lemma compute_english_fmap (f : Z -> Z) (text : pystr) (s : store) :
  (forall c, lower lower_nonascii (f c) = lower lower_nonascii c) ->
  compute_english_gematria lower_nonascii upper_nonascii (f <$> text) s
  = compute_english_gematria lower_nonascii upper_nonascii text s.
Proof.
  intros Hf. destruct text as [|c text]; [reflexivity|].
  pose proof (english_clean_text_fmap f (c :: text) s Hf) as Hclean.
  rewrite fmap_cons in *. unfold compute_english_gematria, bind at 1 6.
  by rewrite Hclean.
Qed.

Lemma lower_ascii_upper (c : Z) :
  lower lower_nonascii (ascii_upper c) = lower lower_nonascii c.
Proof.
  unfold ascii_upper, lower.
  destruct ((97 <=? c) && (c <=? 122)) eqn:Hc; [|reflexivity].
  apply andb_true_iff in Hc as [H1%Z.leb_le H2%Z.leb_le].
  replace ((65 <=? c - 32) && (c - 32 <=? 90)) with true
    by (symmetry; apply andb_true_iff; lia).
  replace ((65 <=? c) && (c <=? 90)) with false
    by (symmetry; apply andb_false_iff; right; apply Z.leb_gt; lia).
  replace (c <? 128) with true by (symmetry; apply Z.ltb_lt; lia).
  f_equal. lia.
Qed.

Lemma lower_ascii_lower (c : Z) :
  lower lower_nonascii (ascii_lower c) = lower lower_nonascii c.
Proof.
  unfold ascii_lower, lower.
  destruct ((65 <=? c) && (c <=? 90)) eqn:Hc; [|by rewrite Hc].
  apply andb_true_iff in Hc as [H1%Z.leb_le H2%Z.leb_le].
  replace ((65 <=? c + 32) && (c + 32 <=? 90)) with false
    by (symmetry; apply andb_false_iff; right; apply Z.leb_gt; lia).
  replace (c + 32 <? 128) with true by (symmetry; apply Z.ltb_lt; lia).
  reflexivity.
Qed.

Lemma english_letters_filter (text : pystr) :
  english_letters lower_nonascii
    (filter (fun c => is_Some (az_code (lower lower_nonascii c))) text)
  = english_letters lower_nonascii text.
Proof.
  unfold english_letters. induction text as [|c text IH]; [reflexivity|].
  cbn [omap list_omap].
  destruct (az_code (lower lower_nonascii c)) as [x|] eqn:Hc.
  - rewrite filter_cons_True by (by rewrite Hc).
    cbn [omap list_omap]. by rewrite Hc, IH.
  - rewrite filter_cons_False; [exact IH|]. rewrite Hc. apply is_Some_None.
Qed.

Lemma english_letters_app (text1 text2 : pystr) :
  english_letters lower_nonascii (text1 ++ text2)
  = english_letters lower_nonascii text1
    ++ english_letters lower_nonascii text2.
Proof. apply omap_app. Qed.

End EnglishMore.

(** X5.  On every input, the "English Ordinal" and "Reverse Ordinal"
    totals (0 when absent) add up to 27 times the number of breakdown
    rows, and every row holds an ordinal between 1 and 26, the reverse
    ordinal 27 minus it, the uppercase letter at that position of the
    alphabet, and the two reductions [((n-1) mod 9)+1] of the two
    ordinals. *)
Theorem X5_english_rows (lower_nonascii upper_nonascii : Z -> pystr)
    (h : list history_entry) (text : pystr) :
  exists tot bd,
    compute_english_gematria lower_nonascii upper_nonascii text (module_store h)
    = (Returns (tot, bd), module_store h)
    /\ Py.get tot "English Ordinal" 0 + Py.get tot "Reverse Ordinal" 0
       = 27 * Py.len bd
    /\ Forall (fun r => 1 <= Ordinal r <= 26
                        /\ RevOrdinal r = 27 - Ordinal r
                        /\ ELetter r = [64 + Ordinal r]
                        /\ Reduction r = (Ordinal r - 1) mod 9 + 1
                        /\ RevReduction r = (RevOrdinal r - 1) mod 9 + 1) bd.
Proof.
  destruct (compute_english_get lower_nonascii upper_nonascii h text)
    as (tot & Hrun & Ho & _ & Hro & _ & _).
  exists tot, (english_row_of <$> english_letters lower_nonascii text).
  split; [exact Hrun|]. split.
  - rewrite Ho, Hro, sum_over_add. unfold Py.len. rewrite length_fmap.
    pose proof (sum_over_bounds
                  (fun x => alphabet_ordinal x + alphabet_reverse_ordinal x)
                  27 27 (english_letters lower_nonascii text)) as Hb.
    unfold Py.len in Hb.
    assert (forall x, x ∈ english_letters lower_nonascii text ->
              27 <= alphabet_ordinal x + alphabet_reverse_ordinal x <= 27)
      as H27
      by (intros x _; unfold alphabet_ordinal, alphabet_reverse_ordinal; lia).
    specialize (Hb H27). lia.
  - apply Forall_fmap, Forall_forall. intros x Hx.
    apply english_letters_az in Hx. cbn.
    unfold alphabet_reduction, alphabet_reverse_reduction,
      alphabet_reverse_ordinal, alphabet_ordinal.
    repeat split; try lia. f_equal. lia.
Qed.

(** X6.  On every input, the "Full Reduction" total and the "English
    Ordinal" total leave the same remainder modulo 9, and so do the
    "Reverse Reduction" and "Reverse Ordinal" totals (each 0 when
    absent). *)
Theorem X6_english_reduction_mod_9 (lower_nonascii upper_nonascii : Z -> pystr)
    (h : list history_entry) (text : pystr) :
  exists tot bd,
    compute_english_gematria lower_nonascii upper_nonascii text (module_store h)
    = (Returns (tot, bd), module_store h)
    /\ Py.get tot "Full Reduction" 0 mod 9
       = Py.get tot "English Ordinal" 0 mod 9
    /\ Py.get tot "Reverse Reduction" 0 mod 9
       = Py.get tot "Reverse Ordinal" 0 mod 9.
Proof.
  destruct (compute_english_get lower_nonascii upper_nonascii h text)
    as (tot & Hrun & Ho & Hr & Hro & Hrr & _).
  eexists _, _. split; [exact Hrun|]. rewrite Ho, Hr, Hro, Hrr.
  split.
  - apply (sum_over_small_mod_9 alphabet_ordinal).
  - apply (sum_over_small_mod_9 alphabet_reverse_ordinal).
Qed.

(** X7.  The English computation does not see the case of ASCII letters:
    whatever the store, putting every "a" .. "z" of the input in
    uppercase, or every "A" .. "Z" in lowercase, gives the same outcome,
    totals and breakdown alike. *)
Theorem X7_english_case_insensitive
    (lower_nonascii upper_nonascii : Z -> pystr) (s : store) (text : pystr) :
  compute_english_gematria lower_nonascii upper_nonascii
    (ascii_upper <$> text) s
  = compute_english_gematria lower_nonascii upper_nonascii text s
  /\ compute_english_gematria lower_nonascii upper_nonascii
       (ascii_lower <$> text) s
     = compute_english_gematria lower_nonascii upper_nonascii text s.
Proof.
  split; apply compute_english_fmap.
  - apply lower_ascii_upper.
  - apply lower_ascii_lower.
Qed.

(** X8.  Characters that do not lowercase to a letter "a" .. "z" (digits,
    spaces, punctuation, other scripts) have no effect on the English
    computation: the input and the input without them give the same
    outcome. *)
Theorem X8_english_ignores_non_letters
    (lower_nonascii upper_nonascii : Z -> pystr)
    (h : list history_entry) (text : pystr) :
  compute_english_gematria lower_nonascii upper_nonascii
    (filter (fun c => is_Some (az_code (lower lower_nonascii c))) text)
    (module_store h)
  = compute_english_gematria lower_nonascii upper_nonascii text
      (module_store h).
Proof.
  rewrite !compute_english_eval. by rewrite english_letters_filter.
Qed.

(** X9.  The English totals are additive: for two inputs, each of the four
    totals of the concatenation (0 when absent) is the sum of the totals of
    the parts, and the breakdown of the concatenation is the two
    breakdowns one after the other. *)
Theorem X9_english_additive (lower_nonascii upper_nonascii : Z -> pystr)
    (h : list history_entry) (text1 text2 : pystr) :
  exists tot1 bd1 tot2 bd2 tot bd,
    compute_english_gematria lower_nonascii upper_nonascii text1
      (module_store h)
    = (Returns (tot1, bd1), module_store h)
    /\ compute_english_gematria lower_nonascii upper_nonascii text2
         (module_store h)
       = (Returns (tot2, bd2), module_store h)
    /\ compute_english_gematria lower_nonascii upper_nonascii (text1 ++ text2)
         (module_store h)
       = (Returns (tot, bd), module_store h)
    /\ Py.get tot "English Ordinal" 0
       = Py.get tot1 "English Ordinal" 0 + Py.get tot2 "English Ordinal" 0
    /\ Py.get tot "Full Reduction" 0
       = Py.get tot1 "Full Reduction" 0 + Py.get tot2 "Full Reduction" 0
    /\ Py.get tot "Reverse Ordinal" 0
       = Py.get tot1 "Reverse Ordinal" 0 + Py.get tot2 "Reverse Ordinal" 0
    /\ Py.get tot "Reverse Reduction" 0
       = Py.get tot1 "Reverse Reduction" 0 + Py.get tot2 "Reverse Reduction" 0
    /\ bd = bd1 ++ bd2.
Proof.
  destruct (compute_english_get lower_nonascii upper_nonascii h text1)
    as (tot1 & Hrun1 & Ho1 & Hr1 & Hro1 & Hrr1 & _).
  destruct (compute_english_get lower_nonascii upper_nonascii h text2)
    as (tot2 & Hrun2 & Ho2 & Hr2 & Hro2 & Hrr2 & _).
  destruct (compute_english_get lower_nonascii upper_nonascii h
              (text1 ++ text2))
    as (tot & Hrun & Ho & Hr & Hro & Hrr & _).
  rewrite english_letters_app in Hrun, Ho, Hr, Hro, Hrr.
  rewrite sum_over_app in Ho, Hr, Hro, Hrr. rewrite fmap_app in Hrun.
  eexists _, _, _, _, _, _.
  split; [exact Hrun1|]. split; [exact Hrun2|]. split; [exact Hrun|].
  repeat split; congruence.
Qed.

(** ** More on the history *)

Lemma lstrip_nil (s : pystr) :
  Py.lstrip s = [] <-> Forall (fun c => Py.isspace c = true) s.
Proof.
  induction s as [|c s IH]; [by split|].
  cbn [Py.lstrip]. destruct (Py.isspace c) eqn:Hc.
  - rewrite IH, Forall_cons. tauto.
  - split; [discriminate|]. intros [Hc' _]%Forall_cons. congruence.
Qed.

Lemma lstrip_all_space (s : pystr) :
  Forall (fun c => Py.isspace c = true) (Py.lstrip s)
  <-> Forall (fun c => Py.isspace c = true) s.
Proof.
  induction s as [|c s IH]; [done|].
  cbn [Py.lstrip]. destruct (Py.isspace c) eqn:Hc; [|done].
  rewrite IH, Forall_cons. tauto.
Qed.

(** [strip] leaves nothing exactly when every character is whitespace. *)
Lemma strip_nil (s : pystr) :
  Py.strip s = [] <-> Forall (fun c => Py.isspace c = true) s.
Proof.
  unfold Py.strip. rewrite <- lstrip_all_space.
  rewrite <- (Forall_reverse _ (Py.lstrip s)), <- lstrip_nil.
  split; [|by intros ->].
  intros Hr. apply (f_equal reverse) in Hr.
  by rewrite reverse_involutive in Hr.
Qed.

Lemma split_from_Some_cons (w : pystr) (s : pystr) :
  Py.split_from (Some w) s <> [].
Proof.
  revert w. induction s as [|c s IH]; intros w; [done|].
  cbn [Py.split_from]. destruct (Py.isspace c); [done|apply IH].
Qed.

(** [split] finds no token exactly when every character is whitespace. *)
Lemma split_nil (s : pystr) :
  Py.split s = [] <-> Forall (fun c => Py.isspace c = true) s.
Proof.
  unfold Py.split. induction s as [|c s IH]; [done|].
  cbn [Py.split_from]. destruct (Py.isspace c) eqn:Hc.
  - rewrite IH, Forall_cons. tauto.
  - split; [by intros H%split_from_Some_cons|].
    intros [Hc' _]%Forall_cons. congruence.
Qed.

Section HistoryMore.

Variable normalize_NFKD : pystr -> pystr.
Variable lower_nonascii : Z -> pystr.
Variable upper_nonascii : Z -> pystr.

Lemma calculate_all_history (calls : list (bool * pystr))
    (h : list history_entry) :
  (length h <= 5)%nat ->
  calculate_all normalize_NFKD lower_nonascii upper_nonascii calls
    (module_store h)
  = (Returns tt,
     module_store
       (take 5
          (reverse
             (calculated_entry normalize_NFKD lower_nonascii upper_nonascii
                <$> filter (fun call => Py.strip call.2 <> []) calls)
           ++ h))).
Proof.
  revert h. induction calls as [|call calls IH]; intros h Hh.
  - cbn. by rewrite take_ge.
  - cbn [calculate_all]. erewrite bind_returns by apply calculate_eval.
    destruct (Py.strip call.2) as [|c0 stripped] eqn:Hs.
    + rewrite filter_cons_False by (by rewrite Hs; intros []). by apply IH.
    + rewrite filter_cons_True by (by rewrite Hs).
      rewrite IH by (rewrite length_take; lia).
      rewrite take_app_take, fmap_cons, reverse_cons, <- app_assoc.
      reflexivity.
Qed.

(** The value a computation hands to the history. *)
Lemma results_of_primary (input_text : pystr) :
  Py.get (results_of normalize_NFKD lower_nonascii upper_nonascii true
            input_text) "Standard" 0
  = sum_over (value_of HEBREW_VALUES)
      (hebrew_letters normalize_NFKD HEBREW_VALUES input_text)
  /\ Py.get (results_of normalize_NFKD lower_nonascii upper_nonascii false
               input_text) "English Ordinal" 0
     = sum_over alphabet_ordinal (english_letters lower_nonascii input_text).
Proof.
  unfold results_of. split.
  - rewrite (compute_hebrew_eval normalize_NFKD (module_store [])).
    cbn [fst module_store g_HEBREW_VALUES]. unfold Py.get.
    by rewrite (proj1 (hebrew_totals_lookup _ _ _ _)).
  - destruct (compute_english_get lower_nonascii upper_nonascii []
                input_text) as (tot & Hrun & Ho & _).
    rewrite Hrun. exact Ho.
Qed.

End HistoryMore.

(** X10.  In a session that starts with an empty history, after any
    sequence of presses of "Calculate" the history holds the entries of
    the presses whose input was not blank, the most recent first, cut to
    the first 5: a press on an empty or whitespace-only input computes but
    records nothing, and nothing else is ever dropped or reordered. *)
Theorem X10_history_is_last_five (normalize_NFKD : pystr -> pystr)
    (lower_nonascii upper_nonascii : Z -> pystr)
    (calls : list (bool * pystr)) :
  calculate_all normalize_NFKD lower_nonascii upper_nonascii calls
    (module_store [])
  = (Returns tt,
     module_store
       (take 5
          (reverse
             (calculated_entry normalize_NFKD lower_nonascii upper_nonascii
                <$> filter (fun call => Py.strip call.2 <> []) calls)))).
Proof.
  rewrite calculate_all_history by (cbn; lia). by rewrite app_nil_r.
Qed.

(** X11.  One press of "Calculate" on an input that is not blank puts one
    entry in front of the first 4 entries of the history.  Its text is the
    input, or the first 30 characters and "..." when the input is longer
    than 30, so at most 33 characters; its language is "Hebrew" or
    "English" as selected; its value is the sum of the table values of the
    recognized Hebrew letters, or the sum of the ordinals of the kept
    English letters, which is 0 for an English input without letters. *)
Theorem X11_recorded_entry (normalize_NFKD : pystr -> pystr)
    (lower_nonascii upper_nonascii : Z -> pystr)
    (is_hebrew : bool) (input_text : pystr) (h : list history_entry) :
  Py.strip input_text <> [] ->
  exists entry,
    calculate normalize_NFKD lower_nonascii upper_nonascii is_hebrew input_text
      (module_store h)
    = (Returns tt, module_store (entry :: take 4 h))
    /\ entry_text entry
       = (if 30 <? Py.len input_text
          then take 30 input_text ++ [46; 46; 46] else input_text)
    /\ Py.len (entry_text entry) <= 33
    /\ entry_lang entry = (if is_hebrew then "Hebrew" else "English")
    /\ entry_val entry
       = (if is_hebrew
          then sum_over (value_of HEBREW_VALUES)
                 (hebrew_letters normalize_NFKD HEBREW_VALUES input_text)
          else sum_over alphabet_ordinal
                 (english_letters lower_nonascii input_text)).
Proof.
  intros Hs.
  pose proof (calculate_eval normalize_NFKD lower_nonascii upper_nonascii h
                (is_hebrew, input_text)) as Hrun.
  cbn [fst snd] in Hrun.
  destruct (Py.strip input_text) as [|c0 stripped]; [done|].
  eexists. split; [exact Hrun|].
  unfold calculated_entry, history_entry_of. cbn [fst snd entry_text
    entry_lang entry_val].
  split; [reflexivity|]. split; [|split; [reflexivity|]].
  - unfold Py.len, Py.slice_to.
    destruct (30 <? Z.of_nat (length input_text)) eqn:Hlen.
    + apply Z.ltb_lt in Hlen. rewrite length_app, length_take. cbn. lia.
    + apply Z.ltb_ge in Hlen. lia.
  - destruct is_hebrew; apply results_of_primary.
Qed.

Lemma X11_recorded_entry_witness :
  Py.strip digits123 <> []
  /\ exists entry,
      calculate nfkd lower_above_ascii upper_above_ascii false digits123
        (module_store [])
      = (Returns tt, module_store (entry :: take 4 []))
      /\ entry_text entry = digits123
      /\ entry_lang entry = "English"
      /\ entry_val entry = 0.
Proof.
  assert (Py.strip digits123 <> []) as Hs by (vm_compute; discriminate).
  split; [exact Hs|].
  destruct (X11_recorded_entry nfkd lower_above_ascii upper_above_ascii
              false digits123 [] Hs)
    as (entry & Hrun & Htext & _ & Hlang & Hval).
  exists entry. split; [exact Hrun|].
  split; [exact Htext|]. split; [exact Hlang|]. exact Hval.
Defined.

(** X12.  In a session that starts with an empty history, every entry the
    history ever holds has a text of 1 to 33 characters, the language
    "Hebrew" or "English", and a value that is not negative. *)
Theorem X12_history_entries (normalize_NFKD : pystr -> pystr)
    (lower_nonascii upper_nonascii : Z -> pystr)
    (calls : list (bool * pystr)) :
  exists h,
    calculate_all normalize_NFKD lower_nonascii upper_nonascii calls
      (module_store [])
    = (Returns tt, module_store h)
    /\ Forall (fun entry =>
                 1 <= Py.len (entry_text entry) <= 33
                 /\ (entry_lang entry = "Hebrew"
                     \/ entry_lang entry = "English")
                 /\ 0 <= entry_val entry) h.
Proof.
  eexists. split; [apply X10_history_is_last_five|].
  apply Forall_take, Forall_reverse, Forall_fmap, Forall_forall.
  intros [b t] [Hs _]%list_elem_of_filter. cbn [snd] in Hs. cbn.
  assert (t <> []) as Ht by (intros ->; by apply Hs).
  split; [|split].
  - unfold Py.len, Py.slice_to.
    destruct (30 <? Z.of_nat (length t)) eqn:Hlen.
    + apply Z.ltb_lt in Hlen. rewrite length_app, length_take.
      change (Z.to_nat 30) with 30%nat. cbn [length]. lia.
    + apply Z.ltb_ge in Hlen. destruct t; [done|]. cbn [length] in *. lia.
  - destruct b; [by left|by right].
  - destruct b.
    + rewrite (proj1 (results_of_primary normalize_NFKD lower_nonascii
                        upper_nonascii t)).
      assert (0 * Py.len (hebrew_letters normalize_NFKD HEBREW_VALUES t)
              <= sum_over (value_of HEBREW_VALUES)
                   (hebrew_letters normalize_NFKD HEBREW_VALUES t)
              <= 400 * Py.len (hebrew_letters normalize_NFKD HEBREW_VALUES t))
        as Hb; [|lia].
      apply sum_over_bounds. intros c Hc. unfold hebrew_letters in Hc.
      destruct t as [|c0 t']; [done|].
      apply value_of_recognized in Hc. lia.
    + rewrite (proj2 (results_of_primary normalize_NFKD lower_nonascii
                        upper_nonascii t)).
      assert (0 * Py.len (english_letters lower_nonascii t)
              <= sum_over alphabet_ordinal (english_letters lower_nonascii t)
              <= 26 * Py.len (english_letters lower_nonascii t))
        as Hb; [|lia].
      apply sum_over_bounds. intros x Hx%english_letters_az.
      unfold alphabet_ordinal. lia.
Qed.

(** X13.  A Hebrew computation is recorded in the history exactly when its
    "Words" total is positive: with no token in the input the press leaves
    the store as it was, and otherwise the history becomes the new entry
    followed by the first 4 of the old ones. *)
Theorem X13_recorded_iff_words (normalize_NFKD : pystr -> pystr)
    (lower_nonascii upper_nonascii : Z -> pystr)
    (input_text : pystr) (h : list history_entry) :
  exists tot bd W,
    compute_hebrew_gematria normalize_NFKD input_text (module_store h)
    = (Returns (tot, bd), module_store h)
    /\ tot !! "Words" = Some W
    /\ ((W = 0
         /\ calculate normalize_NFKD lower_nonascii upper_nonascii true
              input_text (module_store h)
            = (Returns tt, module_store h))
        \/ (0 < W
            /\ calculate normalize_NFKD lower_nonascii upper_nonascii true
                 input_text (module_store h)
               = (Returns tt,
                  module_store
                    (calculated_entry normalize_NFKD lower_nonascii
                       upper_nonascii (true, input_text) :: take 4 h)))).
Proof.
  eexists _, _, _. split; [apply compute_hebrew_eval|].
  split; [apply hebrew_totals_lookup|].
  pose proof (calculate_eval normalize_NFKD lower_nonascii upper_nonascii h
                (true, input_text)) as Hrun.
  cbn [fst snd] in Hrun. unfold Py.len.
  destruct (Py.split input_text) as [|w ws] eqn:Hsplit.
  - left. split; [reflexivity|].
    apply split_nil, strip_nil in Hsplit. by rewrite Hsplit in Hrun.
  - right. split; [cbn [length]; lia|].
    destruct (Py.strip input_text) as [|c0 stripped] eqn:Hstrip; [|exact Hrun].
    apply strip_nil, split_nil in Hstrip. congruence.
Qed.

(** * Properties of the page *)

Lemma lang_key_of_options :
  Page.lang_key (Page.settings_of Page.option_hebrew) = PyStr.of_ascii "hebrew"
  /\ Page.lang_key (Page.settings_of Page.option_english)
     = PyStr.of_ascii "english"
  /\ Page.is_hebrew (Page.settings_of Page.option_hebrew) = true
  /\ Page.is_hebrew (Page.settings_of Page.option_english) = false.
Proof. repeat split; vm_compute; reflexivity. Qed.

Lemma english_is_not_hebrew : PyStr.of_ascii "hebrew" <> PyStr.of_ascii "english".
Proof. intros Heq. vm_compute in Heq. discriminate. Qed.

(** X14.  The URL written by "Calculate" reproduces the computation: for
    either option of the language box and any input text, reading back
    the URL parameters that the press wrote gives the index of that same
    option as the initial selection and that same text as the initial
    input, whatever the parameters held before. *)
Theorem X14_url_round_trip (query_params : gmap string pystr)
    (language input_text : pystr) :
  language ∈ Page.language_options ->
  let shared :=
    Page.write_query_params (Page.lang_key (Page.settings_of language))
      input_text query_params in
  Page.selectbox_initial Page.language_options
    (Page.read_query_params shared).1 = Some language
  /\ (Page.read_query_params shared).2 = input_text.
Proof.
  intros Hin shared. subst shared.
  destruct lang_key_of_options as (Hh & He & _).
  unfold Page.read_query_params, Page.write_query_params. cbn [fst snd].
  rewrite lookup_insert_ne by done. rewrite !lookup_insert_eq.
  split; [|reflexivity].
  unfold Page.language_options in Hin. rewrite !elem_of_cons in Hin.
  destruct Hin as [->|[->|Hin]]; [| |by apply elem_of_nil in Hin].
  - rewrite Hh. rewrite bool_decide_false by apply english_is_not_hebrew.
    rewrite bool_decide_true by reflexivity. reflexivity.
  - rewrite He. rewrite bool_decide_true by reflexivity. reflexivity.
Qed.

Lemma X14_url_round_trip_witness :
  Page.option_english ∈ Page.language_options
  /\ Page.selectbox_initial Page.language_options
       (Page.read_query_params
          (Page.write_query_params
             (Page.lang_key (Page.settings_of Page.option_english))
             shalom ∅)).1
     = Some Page.option_english
  /\ (Page.read_query_params
        (Page.write_query_params
           (Page.lang_key (Page.settings_of Page.option_english))
           shalom ∅)).2 = shalom.
Proof.
  assert (Page.option_english ∈ Page.language_options) as Hin
    by (right; left).
  split; [exact Hin|].
  exact (X14_url_round_trip ∅ Page.option_english shalom Hin).
Defined.

(** X15.  Whatever the URL parameters hold, the language box opens on one
    of its two options: on "English" exactly when the "lang" parameter is
    "english", on "Hebrew" for any other value and when the parameter is
    missing; and the page is in Hebrew mode exactly in the second case. *)
Theorem X15_url_defaults (query_params : gmap string pystr) :
  exists language,
    Page.selectbox_initial Page.language_options
      (Page.read_query_params query_params).1 = Some language
    /\ language ∈ Page.language_options
    /\ (language = Page.option_english
        <-> query_params !! "lang" = Some (PyStr.of_ascii "english"))
    /\ (Page.is_hebrew (Page.settings_of language) = true
        <-> query_params !! "lang" <> Some (PyStr.of_ascii "english")).
Proof.
  destruct lang_key_of_options as (_ & _ & Hh & He).
  assert (Page.option_hebrew <> Page.option_english) as Hne
    by (intros Heq; vm_compute in Heq; discriminate).
  unfold Page.read_query_params. cbn [fst].
  destruct (query_params !! "lang") as [lang_param|] eqn:Hlang.
  - case_bool_decide as Heng.
    + subst lang_param. exists Page.option_english.
      split; [reflexivity|]. split; [right; left|].
      split; [done|]. rewrite He. split; [discriminate|]. intros Hn. done.
    + exists Page.option_hebrew.
      assert (Page.selectbox_initial Page.language_options
                (if bool_decide (lang_param = PyStr.of_ascii "hebrew")
                 then 0 else 0) = Some Page.option_hebrew) as ->
        by (by case_bool_decide).
      split; [reflexivity|]. split; [left|].
      split; [split; [done|congruence]|].
      rewrite Hh. split; [congruence|done].
  - exists Page.option_hebrew. split; [reflexivity|]. split; [left|].
    split; [split; [done|discriminate]|]. rewrite Hh. done.
Qed.

Lemma list_getitem_columns (i : Z) :
  0 <= i ->
  Page.list_getitem (Page.columns 5) i
  = if bool_decide (i < 5) then Page.Shown i
    else Page.Crashed (Page.IndexError i).
Proof.
  intros Hi. unfold Page.list_getitem, Page.columns, Py.range.
  case_bool_decide as Hlt.
  - rewrite (lookup_seqZ_lt 0 5 (Z.to_nat i)) by lia. f_equal. lia.
  - rewrite (lookup_seqZ_ge 0 5 (Z.to_nat i)) by lia. reflexivity.
Qed.

Lemma render_history_items_eval (i : Z) (items : list history_entry) :
  0 <= i <= 5 ->
  Page.render_history_items (Page.columns 5) i items
  = if bool_decide (i + Py.len items <= 5)
    then Page.Shown (zip_with Page.HistoryItem (seqZ i (Py.len items)) items)
    else Page.Crashed (Page.IndexError 5).
Proof.
  unfold Py.len. revert i. induction items as [|item items IH]; intros i Hi.
  - cbn. by rewrite bool_decide_true by lia.
  - cbn [Page.render_history_items length].
    rewrite list_getitem_columns by lia.
    destruct (decide (i < 5)) as [Hlt|Hge].
    + rewrite (bool_decide_true (i < 5)) by done. cbn [Page.and_then].
      rewrite IH by lia.
      destruct (decide (i + 1 + Z.of_nat (length items) <= 5)) as [Hfit|Hno].
      * rewrite !bool_decide_true by lia. cbn [Page.and_then].
        rewrite Nat2Z.inj_succ. rewrite (seqZ_cons i) by lia.
        rewrite Z.pred_succ. replace (Z.succ i) with (i + 1) by lia.
        reflexivity.
      * rewrite !bool_decide_false by lia. reflexivity.
    + rewrite (bool_decide_false (i < 5)) by done. cbn [Page.and_then].
      rewrite bool_decide_false by lia. do 2 f_equal. lia.
Qed.

(** X16.  The history section shows one item per entry, entry [i] in
    column [i], as long as the history holds at most 5 entries, and it
    raises [IndexError] at index 5 for any longer history; in a session
    that starts with an empty history it is shown without an exception
    after any sequence of presses of "Calculate". *)
Theorem X16_history_rendering (normalize_NFKD : pystr -> pystr)
    (lower_nonascii upper_nonascii : Z -> pystr)
    (history : list history_entry) (calls : list (bool * pystr)) :
  Page.render_history history
  = (if bool_decide (Py.len history <= 5)
     then Page.Shown
            (zip_with Page.HistoryItem (seqZ 0 (Py.len history)) history)
     else Page.Crashed (Page.IndexError 5))
  /\ exists h shown,
      calculate_all normalize_NFKD lower_nonascii upper_nonascii calls
        (module_store [])
      = (Returns tt, module_store h)
      /\ Page.render_history h = Page.Shown shown
      /\ length shown = length h.
Proof.
  assert (forall l,
            Page.render_history l
            = (if bool_decide (Py.len l <= 5)
               then Page.Shown
                      (zip_with Page.HistoryItem (seqZ 0 (Py.len l)) l)
               else Page.Crashed (Page.IndexError 5))) as Hrender.
  { intros [|item l]; [reflexivity|].
    unfold Page.render_history. by rewrite render_history_items_eval by lia. }
  split; [apply Hrender|].
  destruct (calculate_all_length normalize_NFKD lower_nonascii upper_nonascii
              calls []) as (h & Hrun & Hlen); [cbn; lia|].
  eexists h, _. split; [exact Hrun|]. rewrite Hrender. unfold Py.len.
  rewrite bool_decide_true by lia. split; [reflexivity|].
  rewrite length_zip_with, length_seqZ. lia.
Qed.


Lemma colored_metric_positive (direction cls : pystr) (col : Z)
    (label : string) (value : Z) (icon : pystr) :
  0 < value ->
  Page.colored_metric direction cls col label value icon
  = [Page.ColoredMetric col direction cls label value icon;
     Page.Code col value].
Proof.
  intros Hv. unfold Page.colored_metric.
  by replace (0 <? value) with true by (symmetry; by apply Z.ltb_lt).
Qed.

Lemma sum_over_positive {A} (f : A -> Z) (x : A) (l : list A) :
  (forall y, y ∈ x :: l -> 1 <= f y) -> 0 < sum_over f (x :: l).
Proof.
  intros Hf.
  assert (forall m, (forall y, y ∈ m -> 1 <= f y) -> 0 <= sum_over f m) as Hm.
  { induction m as [|y m IH]; intros Hy; cbn [sum_over]; [lia|].
    assert (1 <= f y) by (apply Hy; left).
    assert (0 <= sum_over f m) by (apply IH; intros z Hz; apply Hy; by right).
    lia. }
  cbn [sum_over]. assert (1 <= f x) by (apply Hf; left).
  assert (0 <= sum_over f l) by (apply Hm; intros z Hz; apply Hf; by right).
  lia.
Qed.


(** X18.  The Hebrew totals are always shown as four cards, "Standard
    (Ragil)", "Mispar Katan", "Letter Count" and "Word Count".  When the
    normalized text holds no character of U+05D0 .. U+05EA (or the text is
    empty) the first three show 0 and have no copyable value; when it
    holds one, the three totals are present and positive and each card is
    followed by its copyable value.  The word count shown is the number of
    tokens of the input, with its copyable value exactly when it is
    positive. *)
Theorem X18_hebrew_metrics (normalize_NFKD : pystr -> pystr)
    (h : list history_entry) (text direction cls : pystr) :
  let counted :=
    match text with
    | [] => []
    | _ :: _ => filter (fun c => 0x5D0 <= c <= 0x5EA) (normalize_NFKD text)
    end in
  let W := Py.len (Py.split text) in
  exists tot bd,
    compute_hebrew_gematria normalize_NFKD text (module_store h)
    = (Returns (tot, bd), module_store h)
    /\ tot !! "Words" = Some W
    /\ ((counted = []
         /\ Page.render_hebrew_metrics direction cls tot
            = [Page.ColoredMetric 0 direction cls "Standard (Ragil)" 0
                 [0x2721; 0xFE0F];
               Page.ColoredMetric 1 direction cls "Mispar Katan" 0 [0x1F522];
               Page.ColoredMetric 2 direction cls "Letter Count" 0 [0x1F4DD];
               Page.ColoredMetric 3 direction cls "Word Count" W [0x1F4D1]]
              ++ (if 0 <? W then [Page.Code 3 W] else []))
        \/ (counted <> []
            /\ exists S K L,
                tot !! "Standard" = Some S
                /\ tot !! "Mispar Katan" = Some K
                /\ tot !! "Letters" = Some L
                /\ 0 < S /\ 0 < K /\ 0 < L
                /\ Page.render_hebrew_metrics direction cls tot
                   = [Page.ColoredMetric 0 direction cls "Standard (Ragil)" S
                        [0x2721; 0xFE0F];
                      Page.Code 0 S;
                      Page.ColoredMetric 1 direction cls "Mispar Katan" K
                        [0x1F522];
                      Page.Code 1 K;
                      Page.ColoredMetric 2 direction cls "Letter Count" L
                        [0x1F4DD];
                      Page.Code 2 L;
                      Page.ColoredMetric 3 direction cls "Word Count" W
                        [0x1F4D1]]
                     ++ (if 0 <? W then [Page.Code 3 W] else []))).
Proof.
  intros counted W.
  pose proof (compute_hebrew_eval normalize_NFKD (module_store h) text) as Hev.
  cbn [module_store g_HEBREW_VALUES] in Hev. cbv zeta in Hev.
  assert (hebrew_letters normalize_NFKD HEBREW_VALUES text = counted) as Hl.
  { unfold hebrew_letters, counted. destruct text; [reflexivity|].
    apply recognized_alphabet. }
  assert (forall c, c ∈ counted -> 1 <= value_of HEBREW_VALUES c) as Hval.
  { rewrite <- Hl. unfold hebrew_letters. destruct text as [|c0 text'].
    - intros c Hc. by apply elem_of_nil in Hc.
    - intros c Hc%value_of_recognized. lia. }
  rewrite Hl in Hev. clearbody counted. fold W in Hev.
  eexists _, _. split; [exact Hev|].
  split; [apply hebrew_totals_lookup|].
  unfold Page.render_hebrew_metrics, Py.get.
  rewrite (proj1 (hebrew_totals_lookup _ _ _ _)),
    (proj1 (proj2 (hebrew_totals_lookup _ _ _ _))),
    (proj1 (proj2 (proj2 (hebrew_totals_lookup _ _ _ _)))),
    (proj2 (proj2 (proj2 (hebrew_totals_lookup _ _ _ _)))).
  cbn [default from_option id].
  destruct counted as [|c letters].
  - left. split; reflexivity.
  - right. split; [done|].
    exists (sum_over (value_of HEBREW_VALUES) (c :: letters)),
      (sum_over (fun c => (value_of HEBREW_VALUES c - 1) mod 9 + 1)
         (c :: letters)),
      (Py.len (c :: letters)).
    assert (0 < sum_over (value_of HEBREW_VALUES) (c :: letters)) as H1
      by (by apply sum_over_positive).
    assert (0 < sum_over (fun c => (value_of HEBREW_VALUES c - 1) mod 9 + 1)
                  (c :: letters)) as H2.
    { apply sum_over_positive. intros y _.
      pose proof (Z.mod_pos_bound (value_of HEBREW_VALUES y - 1) 9). lia. }
    assert (0 < Py.len (c :: letters)) as H3
      by (unfold Py.len; cbn [length]; lia).
    split; [reflexivity|]. split; [reflexivity|]. split; [reflexivity|].
    split; [exact H1|]. split; [exact H2|]. split; [exact H3|].
    by rewrite !colored_metric_positive by assumption.
Qed.
